(** * Loan projection math of the mortgage calculators

    A shallow embedding of the numeric core of the calculator components
    (purchase, refinance, rent-vs-buy, cash-out, rate buydown, reverse
    mortgage) and the properties their specification states.

    Numbers.  The code is embedded twice.

    In the main embedding a JavaScript [number] is an exact rational or one
    of the three non-finite values [Infinity], [-Infinity], [NaN].  Every
    finite IEEE-754 double is a rational, so every value a calculator can
    receive is covered, and division by zero, [Infinity - Infinity],
    [0 * Infinity] and comparisons with [NaN] behave as in the language;
    but the arithmetic is exact: nothing is rounded and nothing overflows.
    The theorems over this embedding are therefore stated in the program's
    own operations, or are about the shape of a result, its sign and the
    order between values; the lemmas that give a result's exact rational
    value ([payment_spec] and the like) are facts of this embedding and
    serve as proof steps only.

    Whether a result is finite, and what a run yields when [1 + r] rounds to
    1 or a power overflows, is decided by the machine arithmetic.  For
    those questions the payment function and the cash-out computation are
    embedded a second time, in [Double], over binary64 numbers with the
    processor's own addition, multiplication, division and comparisons, and
    are evaluated there.

    Strings.  A JavaScript string is the list of its UTF-16 code units, so
    [length], [trim], [split('')] and the character classes of the regular
    expressions count and test what the language counts and tests. *)

From Stdlib Require Import QArith Qround Qpower Qminmax ZArith NArith Lia Lqa.
From Stdlib Require Import List Bool String Ascii Sorted.
From Stdlib Require Floats.
Import ListNotations.

Declare Scope js_scope.
Delimit Scope js_scope with js.

(** ** JavaScript numbers *)

Inductive number : Type :=
| Finite (q : Q)
| PosInf
| NegInf
| NaN.

Bind Scope js_scope with number.

(** The part of [Math.pow] that exact rationals cannot express (a
    non-integer exponent, a non-finite argument) is left to the host: the
    development holds for every such host. *)
Class MathHost : Type := { pow_host : number -> number -> number }.

Module JS.

Definition of_Z (z : Z) : number := Finite (inject_Z z).

Definition Number_isFinite (n : number) : bool :=
  match n with Finite _ => true | _ => false end.

(** [Infinity] with the sign a comparison against zero reports. *)
Definition inf_signed (c : comparison) : number :=
  match c with Gt => PosInf | Lt => NegInf | Eq => NaN end.

Definition neg (x : number) : number :=
  match x with
  | Finite a => Finite (- a)
  | PosInf => NegInf
  | NegInf => PosInf
  | NaN => NaN
  end.

Definition add (x y : number) : number :=
  match x, y with
  | NaN, _ | _, NaN => NaN
  | Finite a, Finite b => Finite (a + b)
  | PosInf, NegInf | NegInf, PosInf => NaN
  | PosInf, _ | _, PosInf => PosInf
  | NegInf, _ | _, NegInf => NegInf
  end.

Definition sub (x y : number) : number := add x (neg y).

Definition mul (x y : number) : number :=
  match x, y with
  | NaN, _ | _, NaN => NaN
  | Finite a, Finite b => Finite (a * b)
  | Finite a, PosInf | PosInf, Finite a => inf_signed (a ?= 0)
  | Finite a, NegInf | NegInf, Finite a => inf_signed (0 ?= a)
  | PosInf, PosInf | NegInf, NegInf => PosInf
  | PosInf, NegInf | NegInf, PosInf => NegInf
  end.

Definition div (x y : number) : number :=
  match x, y with
  | NaN, _ | _, NaN => NaN
  | Finite a, Finite b =>
      if Qeq_bool b 0 then inf_signed (a ?= 0) else Finite (a / b)
  | Finite _, PosInf | Finite _, NegInf => Finite 0
  | PosInf, Finite b => if Qle_bool 0 b then PosInf else NegInf
  | NegInf, Finite b => if Qle_bool 0 b then NegInf else PosInf
  | _, _ => NaN
  end.

(** [x <= y], [x < y], [x === y]; false as soon as one side is [NaN]. *)
Definition le (x y : number) : bool :=
  match x, y with
  | NaN, _ | _, NaN => false
  | Finite a, Finite b => Qle_bool a b
  | NegInf, _ | _, PosInf => true
  | _, _ => false
  end.

Definition lt (x y : number) : bool :=
  match x, y with
  | NaN, _ | _, NaN => false
  | Finite a, Finite b => negb (Qle_bool b a)
  | NegInf, NegInf | PosInf, PosInf => false
  | NegInf, _ | _, PosInf => true
  | _, _ => false
  end.

Definition strict_eq (x y : number) : bool :=
  match x, y with
  | Finite a, Finite b => Qeq_bool a b
  | PosInf, PosInf | NegInf, NegInf => true
  | _, _ => false
  end.

Definition gt (x y : number) : bool := lt y x.
Definition ge (x y : number) : bool := le y x.

Definition Math_max (x y : number) : number :=
  match x, y with
  | NaN, _ | _, NaN => NaN
  | Finite a, Finite b => Finite (Qmax a b)
  | PosInf, _ | _, PosInf => PosInf
  | NegInf, z | z, NegInf => z
  end.

Definition Math_min (x y : number) : number :=
  match x, y with
  | NaN, _ | _, NaN => NaN
  | Finite a, Finite b => Finite (Qmin a b)
  | NegInf, _ | _, NegInf => NegInf
  | PosInf, z | z, PosInf => z
  end.

(** [Math.round]: the nearest integer, a tie going up. *)
Definition Math_round (x : number) : number :=
  match x with
  | Finite a => of_Z (Qfloor (a + (1 # 2)))
  | _ => x
  end.

Definition Math_ceil (x : number) : number :=
  match x with
  | Finite a => of_Z (Qceiling a)
  | _ => x
  end.

Definition is_integer (q : Q) : bool := Qeq_bool q (inject_Z (Qfloor q)).

(** [Math.pow]: exact for a finite base and an integer exponent. *)
Definition Math_pow `{MathHost} (x y : number) : number :=
  match x, y with
  | Finite a, Finite b =>
      if is_integer b then
        if Qeq_bool a 0 && (Qfloor b <? 0)%Z then PosInf
        else Finite (a ^ Qfloor b)
      else pow_host x y
  | _, _ => pow_host x y
  end.

End JS.

Coercion Finite : Q >-> number.

Infix "+" := JS.add : js_scope.
Infix "-" := JS.sub : js_scope.
Infix "*" := JS.mul : js_scope.
Infix "/" := JS.div : js_scope.
Infix "<=?" := JS.le : js_scope.
Infix "<?" := JS.lt : js_scope.
Infix ">?" := JS.gt (at level 70) : js_scope.
Infix ">=?" := JS.ge (at level 70) : js_scope.
Infix "===" := JS.strict_eq (at level 70) : js_scope.

(** ** JavaScript strings *)

(** A string is its sequence of UTF-16 code units. *)
Module JSString.
Import JS.

Definition jsstring : Type := list N.

(** The code units of an ASCII literal. *)
Definition str (s : string) : jsstring := map N_of_ascii (list_ascii_of_string s).

(** [\d]: an ASCII digit. *)
Definition is_digit (c : N) : bool := (48 <=? c)%N && (c <=? 57)%N.

Definition is_dot (c : N) : bool := (c =? 46)%N.

(** The code units [String.prototype.trim] strips: WhiteSpace and
    LineTerminator. *)
Definition is_space (c : N) : bool :=
  existsb (N.eqb c)
    [9; 10; 11; 12; 13; 32; 160; 5760; 8232; 8233; 8239; 8287; 12288; 65279]%N
  || ((8192 <=? c)%N && (c <=? 8202)%N).

Fixpoint drop_spaces (s : jsstring) : jsstring :=
  match s with
  | c :: t => if is_space c then drop_spaces t else s
  | [] => []
  end.

Definition trim (s : jsstring) : jsstring :=
  rev (drop_spaces (rev (drop_spaces s))).

(** The value of a run of decimal digits. *)
Definition digits_value (s : jsstring) : Z :=
  fold_left (fun acc c => (10 * acc + (Z.of_N c - 48))%Z) s 0%Z.

(** Cut at the first dot: what is before it, and what is after it when
    there is one. *)
Fixpoint split_dot (s : jsstring) : jsstring * option jsstring :=
  match s with
  | [] => ([], None)
  | c :: t =>
      if is_dot c then ([], Some t)
      else let '(a, b) := split_dot t in (c :: a, b)
  end.

(** [Number(s)] for a string of digits and dots, the only strings the
    calculators convert: digits, optionally a dot and more digits, with at
    least one digit unless the string is empty (which is 0); anything else
    here is [NaN]. *)
Definition Number_of_decimal (s : jsstring) : number :=
  match split_dot s with
  | (whole, None) =>
      if forallb is_digit whole then of_Z (digits_value whole) else NaN
  | (whole, Some frac) =>
      if forallb is_digit whole && forallb is_digit frac
         && negb (Nat.eqb (List.length whole + List.length frac) 0)
      then Finite (inject_Z (digits_value (whole ++ frac))
                   / inject_Z (10 ^ Z.of_nat (List.length frac)))
      else NaN
  end.

End JSString.

(** ** The amortization payment, one copy per calculator file *)

Module Purchase.
Import JS.
Local Open Scope js_scope.

Definition clampNonNegative (n : number) : number :=
  if Number_isFinite n then Math_max 0%Q n else 0%Q.

Definition calculateMonthlyPrincipalAndInterest `{MathHost}
    (principal annualRatePercent termYears : number) : number :=
  let P := clampNonNegative principal in
  let years := clampNonNegative termYears in
  let n := Math_round (years * 12%Q) in
  if (P === 0%Q) || (n === 0%Q) then 0%Q else
  let annualRate := clampNonNegative annualRatePercent / 100%Q in
  let r := annualRate / 12%Q in
  if r === 0%Q then P / n else
  let pow := Math_pow (1%Q + r) n in
  (P * r * pow) / (pow - 1%Q).

Import JSString.

Definition parseCurrencyInput (raw : jsstring) : number :=
  let cleaned := filter (fun c => is_digit c || is_dot c) raw in
  let num := Number_of_decimal cleaned in
  if Number_isFinite num then num else 0%Q.

(** The memoised breakdown of the component, as a function of its state. *)
Record Result : Type := mkResult {
  loanAmount : number;
  monthlyPI : number;
  monthlyTax : number;
  monthlyInsurance : number;
  totalMonthlyPayment : number
}.

Definition PurchaseCalculator `{MathHost}
    (homePrice downPayment interestRatePercent loanTermYears
     annualPropertyTax annualHomeInsurance : number) : Result :=
  let loan := Math_max 0%Q (homePrice - downPayment) in
  let pi :=
    calculateMonthlyPrincipalAndInterest loan interestRatePercent loanTermYears in
  let tax := clampNonNegative annualPropertyTax / 12%Q in
  let ins := clampNonNegative annualHomeInsurance / 12%Q in
  let total := pi + tax + ins in
  {| loanAmount := loan;
     monthlyPI := pi;
     monthlyTax := tax;
     monthlyInsurance := ins;
     totalMonthlyPayment := total |}.

(** The percentage shown under the down-payment field. *)
Definition downPaymentPct (homePrice downPayment : number) : number :=
  if homePrice >? 0%Q then (downPayment / homePrice) * 100%Q else 0%Q.

End Purchase.

Module Refinance.
Import JS.
Local Open Scope js_scope.

Definition clampNonNegative (n : number) : number :=
  if Number_isFinite n then Math_max 0%Q n else 0%Q.

Definition calculateMonthlyPrincipalAndInterest `{MathHost}
    (principal annualRatePercent termYears : number) : number :=
  let P := clampNonNegative principal in
  let years := clampNonNegative termYears in
  let n := Math_round (years * 12%Q) in
  if (P === 0%Q) || (n === 0%Q) then 0%Q else
  let annualRate := clampNonNegative annualRatePercent / 100%Q in
  let r := annualRate / 12%Q in
  if r === 0%Q then P / n else
  let pow := Math_pow (1%Q + r) n in
  (P * r * pow) / (pow - 1%Q).

Record Result : Type := mkResult {
  oldMonthlyPayment : number;
  newMonthlyPayment : number;
  monthlySavings : number;
  breakEvenMonths : number
}.

(** The memoised computation of the component, as a function of its state. *)
Definition RefinanceCalculator `{MathHost}
    (originalLoanBalance currentRate newRate newTermYears closingCosts : number)
    : Result :=
  let oldPay :=
    calculateMonthlyPrincipalAndInterest originalLoanBalance currentRate newTermYears in
  let newPay :=
    calculateMonthlyPrincipalAndInterest originalLoanBalance newRate newTermYears in
  let savings := oldPay - newPay in
  let months :=
    if savings >? 0%Q then Math_ceil (clampNonNegative closingCosts / savings)
    else PosInf in
  {| oldMonthlyPayment := oldPay;
     newMonthlyPayment := newPay;
     monthlySavings := savings;
     breakEvenMonths := months |}.

End Refinance.

Module CashOut.
Import JS.
Local Open Scope js_scope.

Definition clampNonNegative (n : number) : number :=
  if Number_isFinite n then Math_max 0%Q n else 0%Q.

Definition calculateMonthlyPrincipalAndInterest `{MathHost}
    (principal annualRatePercent termYears : number) : number :=
  let P := clampNonNegative principal in
  let years := clampNonNegative termYears in
  let n := Math_round (years * 12%Q) in
  if (P === 0%Q) || (n === 0%Q) then 0%Q else
  let annualRate := clampNonNegative annualRatePercent / 100%Q in
  let r := annualRate / 12%Q in
  if r === 0%Q then P / n else
  let pow := Math_pow (1%Q + r) n in
  (P * r * pow) / (pow - 1%Q).

Definition DEFAULT_TERM_YEARS : number := 30%Q.
Definition MAX_LTV : number := 0.8%Q.

Record Result : Type := mkResult {
  maxLoanAllowed : number;
  maxCashOutAllowed : number;
  adjustedCashOut : number;
  newLoanAmount : number;
  newMonthlyPayment : number;
  ltvPercent : number;
  wasCapped : bool
}.

Definition CashOutCalculator `{MathHost}
    (currentHomeValue existingMortgageBalance desiredCashOutAmount newInterestRate : number)
    : Result :=
  let homeValue := clampNonNegative currentHomeValue in
  let existing := clampNonNegative existingMortgageBalance in
  let desired := clampNonNegative desiredCashOutAmount in
  let maxLoan := homeValue * MAX_LTV in
  let maxCashOut := Math_max 0%Q (maxLoan - existing) in
  let cashOut := Math_min desired maxCashOut in
  let loan := existing + cashOut in
  let payment :=
    calculateMonthlyPrincipalAndInterest loan newInterestRate DEFAULT_TERM_YEARS in
  let ltv := if homeValue >? 0%Q then (loan / homeValue) * 100%Q else 0%Q in
  {| maxLoanAllowed := maxLoan;
     maxCashOutAllowed := maxCashOut;
     adjustedCashOut := cashOut;
     newLoanAmount := loan;
     newMonthlyPayment := payment;
     ltvPercent := ltv;
     wasCapped := desired >? maxCashOut |}.

End CashOut.

Module RateBuydown.
Import JS.
Local Open Scope js_scope.

Definition clampNonNegative (n : number) : number :=
  if Number_isFinite n then Math_max 0%Q n else 0%Q.

Definition calculateMonthlyPrincipalAndInterest `{MathHost}
    (principal annualRatePercent termYears : number) : number :=
  let P := clampNonNegative principal in
  let years := clampNonNegative termYears in
  let n := Math_round (years * 12%Q) in
  if (P === 0%Q) || (n === 0%Q) then 0%Q else
  let annualRate := clampNonNegative annualRatePercent / 100%Q in
  let r := annualRate / 12%Q in
  if r === 0%Q then P / n else
  let pow := Math_pow (1%Q + r) n in
  (P * r * pow) / (pow - 1%Q).

Inductive BuydownType : Type := none | temporary_2_1.

(** An optional field of the source ([savingsMonthly?]) is an [option]:
    [None] is the absent field, [Some 0] a field that holds zero. *)
Record ScheduleRow : Type := mkRow {
  periodLabel : string;
  ratePercent : number;
  monthlyPayment : number;
  annualPayment : number;
  savingsMonthly : option number;
  savingsAnnual : option number
}.

Definition TERM_YEARS : number := 30%Q.

Record Result : Type := mkResult {
  baseMonthlyPayment : number;
  schedule : list ScheduleRow
}.

Definition RateBuydownCalculator `{MathHost}
    (buydownType : BuydownType) (loanAmount baseRatePercent : number) : Result :=
  let basePayment :=
    calculateMonthlyPrincipalAndInterest loanAmount baseRatePercent TERM_YEARS in
  let rows :=
    match buydownType with
    | temporary_2_1 =>
        let y1Rate := Math_max 0%Q (baseRatePercent - 2%Q) in
        let y2Rate := Math_max 0%Q (baseRatePercent - 1%Q) in
        let y3Rate := Math_max 0%Q baseRatePercent in
        let y1Pay := calculateMonthlyPrincipalAndInterest loanAmount y1Rate TERM_YEARS in
        let y2Pay := calculateMonthlyPrincipalAndInterest loanAmount y2Rate TERM_YEARS in
        let y3Pay := calculateMonthlyPrincipalAndInterest loanAmount y3Rate TERM_YEARS in
        [ {| periodLabel := "Year 1";
             ratePercent := y1Rate;
             monthlyPayment := y1Pay;
             annualPayment := y1Pay * 12%Q;
             savingsMonthly := Some (basePayment - y1Pay);
             savingsAnnual := Some ((basePayment - y1Pay) * 12%Q) |};
          {| periodLabel := "Year 2";
             ratePercent := y2Rate;
             monthlyPayment := y2Pay;
             annualPayment := y2Pay * 12%Q;
             savingsMonthly := Some (basePayment - y2Pay);
             savingsAnnual := Some ((basePayment - y2Pay) * 12%Q) |};
          {| periodLabel := "Year 3–30";
             ratePercent := y3Rate;
             monthlyPayment := y3Pay;
             annualPayment := y3Pay * 12%Q;
             savingsMonthly := None;
             savingsAnnual := None |} ]
    | none =>
        [ {| periodLabel := "Year 1–30";
             ratePercent := Math_max 0%Q baseRatePercent;
             monthlyPayment := basePayment;
             annualPayment := basePayment * 12%Q;
             savingsMonthly := None;
             savingsAnnual := None |} ]
    end in
  {| baseMonthlyPayment := basePayment; schedule := rows |}.

End RateBuydown.

Module ReverseMortgage.
Import JS.
Local Open Scope js_scope.

Definition clampNonNegative (n : number) : number :=
  if Number_isFinite n then Math_max 0%Q n else 0%Q.

Definition clamp (n min max : number) : number :=
  if negb (Number_isFinite n) then min
  else Math_min max (Math_max min n).

Definition estimatedAvailabilityPct (age : number) : number :=
  let a := clamp age 0%Q 120%Q in
  if a <? 62%Q then 0%Q else
  if a <=? 69%Q then
    let t := (a - 62%Q) / (69%Q - 62%Q) in
    0.35%Q + t * (0.4%Q - 0.35%Q)
  else
  if a <=? 79%Q then
    let t := (a - 70%Q) / (79%Q - 70%Q) in
    0.45%Q + t * (0.5%Q - 0.45%Q)
  else
  let capped := Math_min a 95%Q in
  let t := (capped - 80%Q) / (95%Q - 80%Q) in
  0.55%Q + t * (0.6%Q - 0.55%Q).

Record Result : Type := mkResult {
  availabilityPct : number;
  grossPrincipalLimit : number;
  netPrincipalLimit : number;
  ageEligible : bool
}.

Definition ReverseMortgageCalculator
    (youngestBorrowerAge homeValue currentMortgageBalance : number) : Result :=
  let age := clampNonNegative youngestBorrowerAge in
  let eligible := age >=? 62%Q in
  let pct := estimatedAvailabilityPct age in
  let gross := clampNonNegative homeValue * pct in
  let net := Math_max 0%Q (gross - clampNonNegative currentMortgageBalance) in
  {| availabilityPct := pct;
     grossPrincipalLimit := gross;
     netPrincipalLimit := net;
     ageEligible := eligible |}.

End ReverseMortgage.

Module RentVsBuy.
Import JS.
Local Open Scope js_scope.

Definition clampNonNegative (n : number) : number :=
  if Number_isFinite n then Math_max 0%Q n else 0%Q.

Definition calculateMonthlyPayment `{MathHost}
    (principal annualRatePercent termYears : number) : number :=
  let P := clampNonNegative principal in
  let years := clampNonNegative termYears in
  let n := Math_round (years * 12%Q) in
  if (P === 0%Q) || (n === 0%Q) then 0%Q else
  let annualRate := clampNonNegative annualRatePercent / 100%Q in
  let r := annualRate / 12%Q in
  if r === 0%Q then P / n else
  let pow := Math_pow (1%Q + r) n in
  (P * r * pow) / (pow - 1%Q).

Record DataPoint : Type := mkPoint {
  year : number;
  rentCost : number;
  buyNetCost : number
}.

Definition ASSUMED_DOWN_PCT : number := 0.2%Q.
Definition ASSUMED_RATE_PCT : number := 6.5%Q.
Definition ASSUMED_TERM_YEARS : number := 30%Q.
Definition ASSUMED_TAX_PCT : number := 0.01%Q.
Definition ASSUMED_MAINT_PCT : number := 0.01%Q.

(** The variables the year loop updates. *)
Record Loop : Type := mkLoop {
  remainingBalance : number;
  cumulativePrincipalPaid : number;
  cumulativeRentCost : number;
  cumulativeMortgagePaid : number;
  cumulativeTaxPaid : number;
  cumulativeMaintenancePaid : number;
  points : list DataPoint;
  firstCrossover : option number
}.

(** The inner loop [for (m = 0; m < 12; m++)], [months] iterations left;
    it leaves early once the balance is paid off. *)
Fixpoint month_loop (months : nat) (monthlyMortgagePayment r : number)
    (balance principalPaid : number) : number * number :=
  match months with
  | O => (balance, principalPaid)
  | S months' =>
      if balance <=? 0%Q then (balance, principalPaid) else
      let interestPayment := balance * r in
      let principalPayment := Math_max 0%Q (monthlyMortgagePayment - interestPayment) in
      month_loop months' monthlyMortgagePayment r
        (Math_max 0%Q (balance - principalPayment))
        (principalPaid + principalPayment)
  end.

Section YearLoop.
Context `{MathHost}.
Variables price0 rent0 rentInfl appr downPayment monthlyMortgagePayment r : number.

(** One pass through the body of [for (year = 1; year <= years; year++)]. *)
Definition year_body (year : Z) (s : Loop) : Loop :=
  let yearHomeValue := price0 * Math_pow (1%Q + appr) (of_Z year - 1%Q) in
  let yearMonthlyRent := rent0 * Math_pow (1%Q + rentInfl) (of_Z year - 1%Q) in
  let yearRentCost := yearMonthlyRent * 12%Q in
  let cumulativeRentCost := cumulativeRentCost s + yearRentCost in
  let '(remainingBalance, cumulativePrincipalPaid) :=
    month_loop 12 monthlyMortgagePayment r
      (remainingBalance s) (cumulativePrincipalPaid s) in
  let yearMortgagePaid := monthlyMortgagePayment * 12%Q in
  let cumulativeMortgagePaid := cumulativeMortgagePaid s + yearMortgagePaid in
  let yearTax := yearHomeValue * ASSUMED_TAX_PCT in
  let yearMaint := yearHomeValue * ASSUMED_MAINT_PCT in
  let cumulativeTaxPaid := cumulativeTaxPaid s + yearTax in
  let cumulativeMaintenancePaid := cumulativeMaintenancePaid s + yearMaint in
  let appreciationGain := Math_max 0%Q (yearHomeValue - price0) in
  let equity := downPayment + cumulativePrincipalPaid + appreciationGain in
  let cashOut :=
    downPayment + cumulativeMortgagePaid + cumulativeTaxPaid
    + cumulativeMaintenancePaid in
  let netBuyCost := Math_max 0%Q (cashOut - equity) in
  let firstCrossover :=
    match firstCrossover s with
    | None => if netBuyCost <=? cumulativeRentCost then Some (of_Z year) else None
    | Some y => Some y
    end in
  {| remainingBalance := remainingBalance;
     cumulativePrincipalPaid := cumulativePrincipalPaid;
     cumulativeRentCost := cumulativeRentCost;
     cumulativeMortgagePaid := cumulativeMortgagePaid;
     cumulativeTaxPaid := cumulativeTaxPaid;
     cumulativeMaintenancePaid := cumulativeMaintenancePaid;
     points := points s ++ [ {| year := of_Z year;
                                rentCost := cumulativeRentCost;
                                buyNetCost := netBuyCost |} ];
     firstCrossover := firstCrossover |}.

(** The year loop, from counter value [year] on.  [fuel] bounds the
    number of guard tests; [None] is a loop that has not ended yet. *)
Fixpoint year_loop (fuel : nat) (years : number) (year : Z) (s : Loop)
    : option Loop :=
  match fuel with
  | O => None
  | S fuel' =>
      if of_Z year <=? years
      then year_loop fuel' years (year + 1)%Z (year_body year s)
      else Some s
  end.
End YearLoop.

Record Summary : Type := mkSummary {
  finalRentCost : number;
  finalBuyNetCost : number;
  summaryDownPayment : number;
  summaryLoanAmount : number;
  summaryMonthlyMortgagePayment : number
}.

Record Result : Type := mkResult {
  data : list DataPoint;
  crossoverYear : option number;
  summary : Summary
}.

Definition RentVsBuyCalculator `{MathHost} (fuel : nat)
    (targetHomePrice currentMonthlyRent rentInflationPct homeAppreciationPct
     durationYears : number) : option Result :=
  let years := Math_min 50%Q (Math_max 1%Q (Math_round durationYears)) in
  let price0 := clampNonNegative targetHomePrice in
  let rent0 := clampNonNegative currentMonthlyRent in
  let rentInfl := clampNonNegative rentInflationPct / 100%Q in
  let appr := clampNonNegative homeAppreciationPct / 100%Q in
  let downPayment := price0 * ASSUMED_DOWN_PCT in
  let loanAmount := Math_max 0%Q (price0 - downPayment) in
  let monthlyMortgagePayment :=
    calculateMonthlyPayment loanAmount ASSUMED_RATE_PCT ASSUMED_TERM_YEARS in
  let r := (ASSUMED_RATE_PCT / 100%Q) / 12%Q in
  let start :=
    {| remainingBalance := loanAmount;
       cumulativePrincipalPaid := 0%Q;
       cumulativeRentCost := 0%Q;
       cumulativeMortgagePaid := 0%Q;
       cumulativeTaxPaid := 0%Q;
       cumulativeMaintenancePaid := 0%Q;
       points := [];
       firstCrossover := None |} in
  match year_loop price0 rent0 rentInfl appr downPayment monthlyMortgagePayment r
          fuel years 1%Z start with
  | None => None
  | Some s =>
      let last := List.last (map Some (points s)) None in
      Some {| data := points s;
              crossoverYear := firstCrossover s;
              summary :=
                {| finalRentCost :=
                     match last with Some p => rentCost p | None => 0%Q end;
                   finalBuyNetCost :=
                     match last with Some p => buyNetCost p | None => 0%Q end;
                   summaryDownPayment := downPayment;
                   summaryLoanAmount := loanAmount;
                   summaryMonthlyMortgagePayment := monthlyMortgagePayment |} |}
  end.

End RentVsBuy.

(** ** [embed/color]: hex colours *)

Module Color.
Import JS JSString.
Local Open Scope js_scope.

(** The four values the template [rgba(r,g,b,a)] prints. *)
Record Rgba : Type := mkRgba {
  red : number;
  green : number;
  blue : number;
  opacity : number
}.

(** [[0-9a-fA-F]] *)
Definition is_hex (c : N) : bool :=
  is_digit c || ((65 <=? c)%N && (c <=? 70)%N) || ((97 <=? c)%N && (c <=? 102)%N).

Definition hex_value (c : N) : Z :=
  if is_digit c then (Z.of_N c - 48)%Z
  else if (c <=? 70)%N then (Z.of_N c - 55)%Z
  else (Z.of_N c - 87)%Z.

(** [parseInt(s, 16)] on a string of hex digits. *)
Definition parseInt16 (s : jsstring) : number :=
  of_Z (fold_left (fun acc c => (16 * acc + hex_value c)%Z) s 0%Z).

(** [s.slice(from, to)] for [0 <= from <= to]. *)
Definition slice (s : jsstring) (from to : nat) : jsstring :=
  firstn (to - from) (skipn from s).

Definition hexToRgba (hex : jsstring) (alpha : number) : Rgba :=
  let trimmed := trim hex in
  let cleaned :=
    match trimmed with
    | c :: t => if (c =? 35)%N then t else trimmed
    | [] => trimmed
    end in
  let normalized :=
    if Nat.eqb (List.length cleaned) 3
    then flat_map (fun c => [c; c]) cleaned
    else cleaned in
  if negb (Nat.eqb (List.length normalized) 6 && forallb is_hex normalized)
  then {| red := 0%Q; green := 0%Q; blue := 0%Q; opacity := alpha |}
  else
    let r := parseInt16 (slice normalized 0 2) in
    let g := parseInt16 (slice normalized 2 4) in
    let b := parseInt16 (slice normalized 4 6) in
    let a := if Number_isFinite alpha then Math_min 1%Q (Math_max 0%Q alpha) else 0%Q in
    {| red := r; green := g; blue := b; opacity := a |}.

End Color.

(** ** The same code on IEEE-754 doubles *)

(** The payment function (PurchaseCalculator.tsx, lines 28-49) and the
    cash-out computation (CashOutCalculator.tsx, lines 131-154) once more,
    over binary64 numbers: [+], [-], [*], [/] and the comparisons are the
    processor's, with its rounding to nearest, its overflow to [Infinity]
    and its signed zeros, and a decimal literal denotes the double nearest
    to it, as in the language.  [Math.pow], which the language leaves to
    the implementation, is a parameter of the code. *)
Module Double.
Import Floats.
#[local] Set Warnings "-inexact-float".
Local Open Scope float_scope.

Local Notation "x === y" := (PrimFloat.eqb x y) (at level 70) : float_scope.
Local Notation "x >? y" := (PrimFloat.ltb y x) (at level 70) : float_scope.

Definition Number_isFinite (x : float) : bool := is_finite x.

(** [Math.max] and [Math.min]: [NaN] as soon as one argument is, and [+0]
    above [-0]. *)
Definition Math_max (x y : float) : float :=
  if is_nan x || is_nan y then nan
  else if x <? y then y
  else if y <? x then x
  else if get_sign x then y else x.

Definition Math_min (x y : float) : float :=
  if is_nan x || is_nan y then nan
  else if x <? y then x
  else if y <? x then y
  else if get_sign x then x else y.

(** The double of an integer below [2^53] in absolute value. *)
Definition of_Z (z : Z) : float :=
  match z with
  | Z0 => 0
  | Zpos _ => of_uint63 (Uint63.of_Z z)
  | Zneg p => - of_uint63 (Uint63.of_Z (Zpos p))
  end.

(** [Math.round]: with [x = (-1)^s * m * 2^e], a value with [e >= 0] is an
    integer already; otherwise the result is [floor(x + 1/2)], computed
    exactly on the integers, and a result of 0 keeps the sign of [x]. *)
Definition Math_round (x : float) : float :=
  match Prim2SF x with
  | S754_finite s m e =>
      if (0 <=? e)%Z then x else
      let v := if s then Zneg m else Zpos m in
      let k := ((2 * v + 2 ^ (- e)) / 2 ^ (1 - e))%Z in
      if (k =? 0)%Z then (if s then neg_zero else zero) else of_Z k
  | _ => x
  end.

(** One admissible [Math.pow] for a whole exponent [k >= 1]: [k] factors
    multiplied one after the other, every product rounded.  It stands for
    the implementation's function only where the two cannot differ: a
    power of 1, and a power whose value lies beyond the largest double. *)
Definition pow_by_multiplication (x y : float) : float :=
  match Prim2SF y with
  | S754_finite false m e =>
      if (e <? 0)%Z && (Zpos m mod 2 ^ (- e) =? 0)%Z
      then match (Zpos m / 2 ^ (- e))%Z with
           | Zpos k => Pos.iter (mul x) 1 k
           | _ => nan
           end
      else nan
  | _ => nan
  end.

Section Code.
Variable Math_pow : float -> float -> float.

Definition clampNonNegative (n : float) : float :=
  if Number_isFinite n then Math_max 0 n else 0.

Definition calculateMonthlyPrincipalAndInterest
    (principal annualRatePercent termYears : float) : float :=
  let P := clampNonNegative principal in
  let years := clampNonNegative termYears in
  let n := Math_round (years * 12) in
  if (P === 0) || (n === 0) then 0 else
  let annualRate := clampNonNegative annualRatePercent / 100 in
  let r := annualRate / 12 in
  if r === 0 then P / n else
  let pow := Math_pow (1 + r) n in
  (P * r * pow) / (pow - 1).

Definition DEFAULT_TERM_YEARS : float := 30.
Definition MAX_LTV : float := 0.8.

Record Result : Type := mkResult {
  maxLoanAllowed : float;
  maxCashOutAllowed : float;
  adjustedCashOut : float;
  newLoanAmount : float;
  newMonthlyPayment : float;
  ltvPercent : float;
  wasCapped : bool
}.

Definition CashOutCalculator
    (currentHomeValue existingMortgageBalance desiredCashOutAmount newInterestRate : float)
    : Result :=
  let homeValue := clampNonNegative currentHomeValue in
  let existing := clampNonNegative existingMortgageBalance in
  let desired := clampNonNegative desiredCashOutAmount in
  let maxLoan := homeValue * MAX_LTV in
  let maxCashOut := Math_max 0 (maxLoan - existing) in
  let cashOut := Math_min desired maxCashOut in
  let loan := existing + cashOut in
  let payment :=
    calculateMonthlyPrincipalAndInterest loan newInterestRate DEFAULT_TERM_YEARS in
  let ltv := if homeValue >? 0 then (loan / homeValue) * 100 else 0 in
  {| maxLoanAllowed := maxLoan;
     maxCashOutAllowed := maxCashOut;
     adjustedCashOut := cashOut;
     newLoanAmount := loan;
     newMonthlyPayment := payment;
     ltvPercent := ltv;
     wasCapped := desired >? maxCashOut |}.

End Code.

End Double.

(** ** The specification's formulas *)

Module Spec.
Local Open Scope Q_scope.

(** [max(0, x)], a non-finite [x] counting as 0. *)
Definition nonneg (x : number) : Q :=
  match x with Finite q => Qmax 0 q | _ => 0 end.

(** [round]: to the nearest integer. *)
Definition round (q : Q) : Z := Qfloor (q + (1 # 2)).

(** [n = round(termYears * 12)], the number of monthly periods. *)
Definition periods (termYears : number) : Z := round (nonneg termYears * 12).

(** [r = (annualRatePercent / 100) / 12], the monthly rate. *)
Definition monthlyRate (annualRatePercent : number) : Q :=
  nonneg annualRatePercent / 100 / 12.

(** The level monthly payment as section 4.1 words it. *)
Definition monthlyPayment (principal annualRatePercent termYears : number) : Q :=
  let P := nonneg principal in
  let n := periods termYears in
  if Qeq_bool P 0 || (n =? 0)%Z then 0 else
  let r := monthlyRate annualRatePercent in
  if Qeq_bool r 0 then P / inject_Z n else
  P * r * (1 + r) ^ n / ((1 + r) ^ n - 1).

(** [clamp(round(durationYears), 1, 50)]. *)
Definition years (durationYears : Q) : Z :=
  Z.min 50 (Z.max 1 (round durationYears)).

(** Section 4.1 read as a procedure, each step carried out with the
    program's own operations: clamp, count the periods, the two early
    returns, then the annuity formula. *)
Definition paymentSteps `{MathHost}
    (principal annualRatePercent termYears : number) : number :=
  let clamped x := if JS.Number_isFinite x then JS.Math_max (Finite 0) x else Finite 0 in
  let principal := clamped principal in
  let termYears := clamped termYears in
  let n := JS.Math_round (termYears * Finite 12)%js in
  if (principal === Finite 0)%js || (n === Finite 0)%js then Finite 0 else
  let r := (clamped annualRatePercent / Finite 100 / Finite 12)%js in
  if (r === Finite 0)%js then (principal / n)%js else
  (principal * r * JS.Math_pow (Finite 1 + r) n
   / (JS.Math_pow (Finite 1 + r) n - Finite 1))%js.

End Spec.

(** Two numbers are the same value: equal rationals, or the same
    non-finite value. *)
Definition same_number (x y : number) : Prop :=
  match x, y with
  | Finite a, Finite b => (a == b)%Q
  | PosInf, PosInf | NegInf, NegInf | NaN, NaN => True
  | _, _ => False
  end.

Definition same_numberb (x y : number) : bool :=
  match x, y with
  | Finite a, Finite b => Qeq_bool a b
  | PosInf, PosInf | NegInf, NegInf | NaN, NaN => true
  | _, _ => false
  end.

Infix "=n=" := same_number (at level 70) : type_scope.

(** A host whose [Math.pow] answers [NaN] wherever exact rationals end. *)
Definition silent_host : MathHost := {| pow_host := fun _ _ => NaN |}.

(** A projection point at which buying has caught up with renting:
    [buyNetCost <= rentCost]. *)
Definition crosses (p : RentVsBuy.DataPoint) : bool :=
  JS.le (RentVsBuy.buyNetCost p) (RentVsBuy.rentCost p).

(** The loop's [firstCrossover] is the year of the first crossing point
    pushed so far, or [null] when there is none. *)
Definition crossover_tracks (s : RentVsBuy.Loop) : Prop :=
  RentVsBuy.firstCrossover s
  = option_map RentVsBuy.year (find crosses (RentVsBuy.points s)).

(** The years [1, 2, ..., n] as the loop counter holds them. *)
Definition years_1_to (n : nat) : list number :=
  map (fun i => JS.of_Z (Z.of_nat i)) (seq 1 n).

(** A projection point holds two finite costs, neither below 0. *)
Definition point_ok (p : RentVsBuy.DataPoint) : Prop :=
  exists rc bc : Q,
    RentVsBuy.rentCost p = Finite rc /\ RentVsBuy.buyNetCost p = Finite bc
    /\ (0 <= rc)%Q /\ (0 <= bc)%Q.

(** The cumulative rent of [p1] is at most that of [p2]. *)
Definition rent_le (p1 p2 : RentVsBuy.DataPoint) : Prop :=
  JS.le (RentVsBuy.rentCost p1) (RentVsBuy.rentCost p2) = true.

(** The loop variables are finite, balance and cumulative rent are not
    negative, and the points pushed so far are sound and ordered by rent,
    none above the running total. *)
Definition costs_ok (s : RentVsBuy.Loop) : Prop :=
  exists bal paid rent mort tax maint : Q,
    RentVsBuy.remainingBalance s = Finite bal
    /\ RentVsBuy.cumulativePrincipalPaid s = Finite paid
    /\ RentVsBuy.cumulativeRentCost s = Finite rent
    /\ RentVsBuy.cumulativeMortgagePaid s = Finite mort
    /\ RentVsBuy.cumulativeTaxPaid s = Finite tax
    /\ RentVsBuy.cumulativeMaintenancePaid s = Finite maint
    /\ (0 <= bal)%Q /\ (0 <= rent)%Q
    /\ Forall (fun p => point_ok p
                       /\ JS.le (RentVsBuy.rentCost p) (Finite rent) = true)
         (RentVsBuy.points s)
    /\ StronglySorted rent_le (RentVsBuy.points s).

(** Neither cost of a projection point is below 0. *)
Definition no_negative_cost (p : RentVsBuy.DataPoint) : Prop :=
  JS.lt (RentVsBuy.rentCost p) (Finite 0) = false
  /\ JS.lt (RentVsBuy.buyNetCost p) (Finite 0) = false.

(** The cumulative rent of the later point [p2] is not below that of the
    earlier point [p1]. *)
Definition rent_not_lower (p1 p2 : RentVsBuy.DataPoint) : Prop :=
  JS.lt (RentVsBuy.rentCost p2) (RentVsBuy.rentCost p1) = false.

(** * Properties *)

Import JS.

(** ** Arithmetic of finite numbers *)

Lemma Qeq_bool_inject_Z (z : Z) : Qeq_bool (inject_Z z) 0 = (z =? 0)%Z.
Proof.
  apply eq_true_iff_eq. rewrite Qeq_bool_iff, Z.eqb_eq.
  unfold Qeq; simpl. lia.
Qed.

Lemma Qeq_bool_false (a b : Q) : ~ (a == b)%Q -> Qeq_bool a b = false.
Proof.
  intros Hn. destruct (Qeq_bool a b) eqn:E; [|reflexivity].
  apply Qeq_bool_iff in E. contradiction.
Qed.

Lemma div_Finite (a b : Q) :
  ~ (b == 0)%Q -> (Finite a / Finite b)%js = Finite (a / b).
Proof. intros Hb. unfold div. now rewrite (Qeq_bool_false _ _ Hb). Qed.

Lemma is_integer_inject_Z (z : Z) : is_integer (inject_Z z) = true.
Proof. unfold is_integer. rewrite Qfloor_Z. apply Qeq_bool_refl. Qed.

Lemma Math_pow_int `{MathHost} (a : Q) (z : Z) :
  (0 <= z)%Z -> Math_pow (Finite a) (of_Z z) = Finite (a ^ z).
Proof.
  intros Hz. unfold Math_pow, of_Z. rewrite is_integer_inject_Z, Qfloor_Z.
  replace (z <? 0)%Z with false by (symmetry; apply Z.ltb_ge; exact Hz).
  now rewrite andb_false_r.
Qed.

Lemma nonneg_ge0 (x : number) : (0 <= Spec.nonneg x)%Q.
Proof. destruct x; simpl; try apply Qle_refl. apply Q.le_max_l. Qed.

Lemma periods_ge0 (t : number) : (0 <= Spec.periods t)%Z.
Proof.
  unfold Spec.periods, Spec.round.
  pose proof (nonneg_ge0 t) as Ht.
  apply (Qfloor_resp_le 0). lra.
Qed.

Lemma monthlyRate_ge0 (a : number) : (0 <= Spec.monthlyRate a)%Q.
Proof.
  unfold Spec.monthlyRate. pose proof (nonneg_ge0 a) as Ha.
  do 2 (apply Qle_shift_div_l; [reflexivity|]). lra.
Qed.

Lemma annuity_divisor_pos (r : Q) (n : Z) :
  (0 < r)%Q -> (0 < n)%Z -> (0 < (1 + r) ^ n - 1)%Q.
Proof.
  intros Hr Hn. assert (1 < (1 + r) ^ n)%Q by (apply Qpower_1_lt; [lra | exact Hn]).
  lra.
Qed.

Lemma clampNonNegative_nonneg (x : number) :
  Purchase.clampNonNegative x = Finite (Spec.nonneg x).
Proof. destruct x; reflexivity. Qed.

Lemma payment_spec `{MathHost} (principal annualRatePercent termYears : number) :
  Purchase.calculateMonthlyPrincipalAndInterest principal annualRatePercent termYears
  = Finite (Spec.monthlyPayment principal annualRatePercent termYears).
Proof.
  unfold Purchase.calculateMonthlyPrincipalAndInterest, Spec.monthlyPayment.
  rewrite !clampNonNegative_nonneg.
  pose proof (nonneg_ge0 principal) as HP.
  pose proof (periods_ge0 termYears) as Hn.
  pose proof (monthlyRate_ge0 annualRatePercent) as Hr.
  change (Math_round (Finite (Spec.nonneg termYears) * Finite 12)%js)
    with (of_Z (Spec.periods termYears)).
  unfold strict_eq at 1 2. unfold of_Z at 1. rewrite Qeq_bool_inject_Z.
  destruct (Qeq_bool (Spec.nonneg principal) 0 || (Spec.periods termYears =? 0)%Z) eqn:E0;
    [reflexivity|].
  apply orb_false_elim in E0. destruct E0 as [_ En]. apply Z.eqb_neq in En.
  rewrite !div_Finite by (intros Hc; discriminate Hc).
  change (Spec.nonneg annualRatePercent / 100 / 12)%Q with (Spec.monthlyRate annualRatePercent).
  unfold strict_eq.
  destruct (Qeq_bool (Spec.monthlyRate annualRatePercent) 0) eqn:Er.
  - unfold of_Z. apply div_Finite. intros Hc.
    apply Qeq_bool_iff in Hc. rewrite Qeq_bool_inject_Z in Hc. apply Z.eqb_eq in Hc. lia.
  - apply Qeq_bool_neq in Er.
    change (Finite 1 + Finite (Spec.monthlyRate annualRatePercent))%js
      with (Finite (1 + Spec.monthlyRate annualRatePercent)).
    rewrite Math_pow_int by exact Hn.
    apply div_Finite.
    assert (0 < (1 + Spec.monthlyRate annualRatePercent) ^ Spec.periods termYears - 1)%Q.
    { apply annuity_divisor_pos; [|lia]. apply Qle_lteq in Hr. destruct Hr as [Hr|Hr]; [exact Hr|].
      exfalso. apply Er. symmetry. exact Hr. }
    intros Hc. unfold Qminus in H0. rewrite Hc in H0. apply (Qlt_irrefl 0). exact H0.
Qed.


Lemma nonneg_pos (q : Q) : (0 < q)%Q -> Spec.nonneg (Finite q) = q.
Proof.
  intros Hq. simpl. unfold Qmax, GenericMinMax.gmax.
  now rewrite (proj1 (Qlt_alt 0 q) Hq).
Qed.

Lemma nonneg_of_nonneg (q : Q) : (0 <= q)%Q -> (Spec.nonneg (Finite q) == q)%Q.
Proof. intros Hq. simpl. apply Q.max_r. exact Hq. Qed.

Lemma monthlyPayment_ge0 (p a t : number) : (0 <= Spec.monthlyPayment p a t)%Q.
Proof.
  unfold Spec.monthlyPayment.
  pose proof (nonneg_ge0 p) as HP.
  pose proof (periods_ge0 t) as Hn.
  pose proof (monthlyRate_ge0 a) as Hr.
  destruct (Qeq_bool (Spec.nonneg p) 0 || (Spec.periods t =? 0)%Z) eqn:E0; [apply Qle_refl|].
  apply orb_false_elim in E0. destruct E0 as [_ En]. apply Z.eqb_neq in En.
  destruct (Qeq_bool (Spec.monthlyRate a) 0) eqn:Er.
  - apply Qle_shift_div_l; [|lra].
    change 0%Q with (inject_Z 0). rewrite <- Zlt_Qlt. lia.
  - apply Qeq_bool_neq in Er.
    assert (0 < Spec.monthlyRate a)%Q as Hr'.
    { apply Qle_lteq in Hr. destruct Hr as [Hr|Hr]; [exact Hr|]. exfalso. apply Er. now symmetry. }
    assert (0 < (1 + Spec.monthlyRate a) ^ Spec.periods t - 1)%Q as Hd
      by (apply annuity_divisor_pos; [exact Hr'|lia]).
    apply Qle_shift_div_l; [exact Hd|].
    rewrite Qmult_0_l. apply Qmult_le_0_compat; [apply Qmult_le_0_compat; lra|lra].
Qed.

(** ** The monthly payment *)

(** C1. On every input the payment function carries out the steps of
    section 4.1: principal and term clamped to [max(0, x)] (non-finite as
    0), [n = round(termYears * 12)], 0 when the clamped principal or [n] is
    0, [P / n] when the clamped monthly rate [r] is 0, and
    [P * r * (1+r)^n / ((1+r)^n - 1)] otherwise, every operation being the
    program's own. *)
Theorem C1_payment_follows_formula `{MathHost}
    (principal annualRatePercent termYears : number) :
  let P := Purchase.clampNonNegative principal in
  let n := Math_round (Purchase.clampNonNegative termYears * 12%Q)%js in
  let r := (Purchase.clampNonNegative annualRatePercent / 100%Q / 12%Q)%js in
  let payment :=
    Purchase.calculateMonthlyPrincipalAndInterest principal annualRatePercent termYears in
  payment = Spec.paymentSteps principal annualRatePercent termYears
  /\ ((P === 0%Q)%js || (n === 0%Q)%js = true -> payment = Finite 0)
  /\ ((P === 0%Q)%js || (n === 0%Q)%js = false ->
      ((r === 0%Q)%js = true -> payment = (P / n)%js)
      /\ ((r === 0%Q)%js = false ->
          payment
          = (P * r * Math_pow (1%Q + r) n / (Math_pow (1%Q + r) n - 1%Q))%js)).
Proof.
  cbv zeta. split; [reflexivity|].
  unfold Purchase.calculateMonthlyPrincipalAndInterest.
  split; [intros ->; reflexivity|].
  intros ->. split; intros ->; reflexivity.
Qed.

Lemma C1_payment_follows_formula_witness :
  ((Purchase.clampNonNegative 1200%Q === 0%Q)
   || (Math_round (Purchase.clampNonNegative 1%Q * 12%Q) === 0%Q))%js = false
  /\ (Purchase.clampNonNegative 12%Q / 100%Q / 12%Q === 0%Q)%js = false
  /\ @Purchase.calculateMonthlyPrincipalAndInterest silent_host 1200%Q 12%Q 1%Q
     = (Purchase.clampNonNegative 1200%Q
        * (Purchase.clampNonNegative 12%Q / 100%Q / 12%Q)
        * @Math_pow silent_host (1%Q + Purchase.clampNonNegative 12%Q / 100%Q / 12%Q)
            (Math_round (Purchase.clampNonNegative 1%Q * 12%Q))
        / (@Math_pow silent_host (1%Q + Purchase.clampNonNegative 12%Q / 100%Q / 12%Q)
             (Math_round (Purchase.clampNonNegative 1%Q * 12%Q))
           - 1%Q))%js.
Proof.
  split; [reflexivity|]. split; [reflexivity|].
  pose proof (@C1_payment_follows_formula silent_host 1200%Q 12%Q 1%Q) as T.
  cbv zeta in T. destruct T as (_ & _ & T).
  destruct (T eq_refl) as [_ Tr]. exact (Tr eq_refl).
Defined.



(** C8, as the code has it.  For a principal [>= 0] and a term [> 0], the
    payment at a zero rate is decided by the period count
    [n = round(termYears * 12)] the code computes: the principal divided
    by [n] when [n] is not 0, and 0 when the term rounds to no period at
    all. *)
Theorem C8_zero_rate_payment `{MathHost} (principal termYears : Q) :
  (0 <= principal)%Q -> (0 < termYears)%Q ->
  let n := Math_round (Finite termYears * 12%Q)%js in
  Purchase.calculateMonthlyPrincipalAndInterest principal 0%Q termYears
  =n= (if (n === 0%Q)%js then Finite 0 else (Finite principal / n)%js).
Proof.
  intros Hp Ht. cbv zeta. rewrite payment_spec.
  unfold Spec.monthlyPayment, Spec.periods, Spec.monthlyRate.
  rewrite (nonneg_pos termYears Ht).
  change (Math_round (Finite termYears * Finite 12)%js)
    with (of_Z (Spec.round (termYears * 12))).
  unfold strict_eq, of_Z at 1. rewrite Qeq_bool_inject_Z.
  pose proof (nonneg_of_nonneg principal Hp) as HP.
  destruct (Spec.round (termYears * 12) =? 0)%Z eqn:En.
  - rewrite orb_true_r. simpl. reflexivity.
  - rewrite orb_false_r.
    unfold of_Z. rewrite div_Finite.
    2:{ intros Hc. apply Qeq_bool_iff in Hc. rewrite Qeq_bool_inject_Z in Hc. congruence. }
    destruct (Qeq_bool (Spec.nonneg principal) 0) eqn:EP.
    + apply Qeq_bool_iff in EP. simpl same_number. rewrite <- HP, EP.
      unfold Qdiv. now rewrite Qmult_0_l.
    + replace (Qeq_bool (Spec.nonneg 0%Q / 100 / 12) 0) with true by reflexivity.
      simpl same_number. now rewrite HP.
Qed.

Lemma C8_zero_rate_payment_witness :
  (0 <= 120000)%Q /\ (0 < 30)%Q /\
  @Purchase.calculateMonthlyPrincipalAndInterest silent_host 120000%Q 0%Q 30%Q
  =n= (Finite 120000 / Math_round (Finite 30 * 12%Q))%js.
Proof.
  split; [discriminate|]. split; [reflexivity|].
  apply (@C8_zero_rate_payment silent_host 120000 30); [discriminate | reflexivity].
Defined.

(** C8 as worded fails: a term of 0.01 years rounds to 0 periods, the code
    returns 0, and the quotient [100 / 0] is [Infinity]. *)
Lemma C8_short_term_counterexample :
  (0 <= 100)%Q /\ (0 < 1 # 100)%Q /\
  same_numberb
    (@Purchase.calculateMonthlyPrincipalAndInterest silent_host 100%Q 0%Q (1 # 100)%Q)
    (Finite 100 / Math_round (Finite (1 # 100) * 12%Q))%js = false.
Proof. split; [discriminate|]. split; reflexivity. Qed.

(** C9. The five copies of the payment function are one function. *)
Theorem C9_payment_copies_agree `{MathHost}
    (principal annualRatePercent termYears : number) :
  CashOut.calculateMonthlyPrincipalAndInterest principal annualRatePercent termYears
  = Purchase.calculateMonthlyPrincipalAndInterest principal annualRatePercent termYears
  /\ RateBuydown.calculateMonthlyPrincipalAndInterest principal annualRatePercent termYears
  = Purchase.calculateMonthlyPrincipalAndInterest principal annualRatePercent termYears
  /\ Refinance.calculateMonthlyPrincipalAndInterest principal annualRatePercent termYears
  = Purchase.calculateMonthlyPrincipalAndInterest principal annualRatePercent termYears
  /\ RentVsBuy.calculateMonthlyPayment principal annualRatePercent termYears
  = Purchase.calculateMonthlyPrincipalAndInterest principal annualRatePercent termYears.
Proof. repeat split. Qed.

(** ** Reverse mortgage *)

Lemma Math_max0_not_negative (x : number) : (Math_max 0%Q x <? 0%Q)%js = false.
Proof.
  destruct x as [q| | |]; try reflexivity.
  simpl. apply negb_false_iff, Qle_bool_iff, Q.le_max_l.
Qed.

Lemma young_age_pct (a : Q) :
  (0 <= a)%Q -> (a < 62)%Q -> ReverseMortgage.estimatedAvailabilityPct a = Finite 0.
Proof.
  intros H0 H62. unfold ReverseMortgage.estimatedAvailabilityPct, ReverseMortgage.clamp.
  simpl Number_isFinite. cbv iota beta. simpl negb. cbv iota.
  replace ((Math_min 120%Q (Math_max 0%Q a) <? 62%Q)%js) with true; [reflexivity|].
  symmetry. simpl. apply negb_true_iff.
  destruct (Qle_bool 62 (Qmin 120 (Qmax 0 a))) eqn:E; [|reflexivity].
  apply Qle_bool_iff in E. exfalso.
  assert (Qmin 120 (Qmax 0 a) <= Qmax 0 a)%Q by apply Q.le_min_r.
  assert (Qmax 0 a == a)%Q by (apply Q.max_r; exact H0).
  lra.
Qed.

(** C3. The availability percentage takes the listed spot values (0 at 61,
    0.35 at 62, 0.40 at 69, 0.45 at 70, 0.60 at 95 and at 150), and for
    every age below 62 the borrower is ineligible and the gross and net
    principal limits are 0 whatever the home value and mortgage balance. *)
Theorem C3_availability_and_gate :
  ReverseMortgage.estimatedAvailabilityPct 61%Q =n= 0%Q
  /\ ReverseMortgage.estimatedAvailabilityPct 62%Q =n= 0.35%Q
  /\ ReverseMortgage.estimatedAvailabilityPct 69%Q =n= 0.40%Q
  /\ ReverseMortgage.estimatedAvailabilityPct 70%Q =n= 0.45%Q
  /\ ReverseMortgage.estimatedAvailabilityPct 95%Q =n= 0.60%Q
  /\ ReverseMortgage.estimatedAvailabilityPct 150%Q =n= 0.60%Q
  /\ (forall youngestBorrowerAge homeValue currentMortgageBalance : number,
        (youngestBorrowerAge <? 62%Q)%js = true ->
        let res := ReverseMortgage.ReverseMortgageCalculator
                     youngestBorrowerAge homeValue currentMortgageBalance in
        ReverseMortgage.ageEligible res = false
        /\ ReverseMortgage.grossPrincipalLimit res =n= 0%Q
        /\ ReverseMortgage.netPrincipalLimit res =n= 0%Q).
Proof.
  repeat (split; [reflexivity|]).
  intros age hv bal Hage res. subst res.
  unfold ReverseMortgage.ReverseMortgageCalculator. cbn [ReverseMortgage.ageEligible
    ReverseMortgage.grossPrincipalLimit ReverseMortgage.netPrincipalLimit].
  change ReverseMortgage.clampNonNegative with Purchase.clampNonNegative.
  rewrite !clampNonNegative_nonneg.
  assert (Spec.nonneg age < 62)%Q as H62.
  { destruct age as [q| | |]; simpl in Hage |- *; try reflexivity; try discriminate.
    apply negb_true_iff in Hage. apply Q.max_lub_lt; [reflexivity|].
    apply Qnot_le_lt. intros Hc. apply Qle_bool_iff in Hc. congruence. }
  rewrite (young_age_pct _ (nonneg_ge0 age) H62).
  pose proof (nonneg_ge0 bal) as Hb.
  split; [|split].
  - unfold ge. simpl. destruct (Qle_bool 62 (Spec.nonneg age)) eqn:E; [|reflexivity].
    apply Qle_bool_iff in E. lra.
  - simpl. ring.
  - simpl. apply Q.max_l. lra.
Qed.

Lemma C3_availability_and_gate_witness :
  (Finite 50 <? 62%Q)%js = true
  /\ ReverseMortgage.grossPrincipalLimit
       (ReverseMortgage.ReverseMortgageCalculator 50%Q 500000%Q 150000%Q) =n= 0%Q.
Proof.
  split; [reflexivity|].
  apply (proj2 (proj2 (proj2 (proj2 (proj2 (proj2 C3_availability_and_gate)))))
           50%Q 500000%Q 150000%Q).
  reflexivity.
Defined.

(** ** Cash-out refinance *)

Lemma cashout_values `{MathHost} (hv ex des rate : number) :
  let h := Spec.nonneg hv in
  let e := Spec.nonneg ex in
  let d := Spec.nonneg des in
  let m := Qmax 0 (h * 0.8 - e) in
  let res := CashOut.CashOutCalculator hv ex des rate in
  CashOut.maxLoanAllowed res = Finite (h * 0.8)
  /\ CashOut.maxCashOutAllowed res = Finite m
  /\ CashOut.adjustedCashOut res = Finite (Qmin d m)
  /\ CashOut.newLoanAmount res = Finite (e + Qmin d m)
  /\ CashOut.wasCapped res = negb (Qle_bool d m)
  /\ CashOut.ltvPercent res
     = if negb (Qle_bool h 0) then Finite ((e + Qmin d m) / h * 100) else Finite 0.
Proof.
  cbv zeta. unfold CashOut.CashOutCalculator.
  change CashOut.clampNonNegative with Purchase.clampNonNegative.
  rewrite !clampNonNegative_nonneg.
  cbn [CashOut.maxLoanAllowed CashOut.maxCashOutAllowed CashOut.adjustedCashOut
       CashOut.newLoanAmount CashOut.wasCapped CashOut.ltvPercent].
  repeat (split; [reflexivity|]).
  unfold gt. simpl lt.
  destruct (Qle_bool (Spec.nonneg hv) 0) eqn:E; simpl negb; cbv iota; [reflexivity|].
  change (Finite (Spec.nonneg ex) + Math_min (Spec.nonneg des)
            (Math_max 0%Q (Finite (Spec.nonneg hv) * CashOut.MAX_LTV - Spec.nonneg ex)))%js
    with (Finite (Spec.nonneg ex
                  + Qmin (Spec.nonneg des) (Qmax 0 (Spec.nonneg hv * 0.8 - Spec.nonneg ex)))).
  rewrite div_Finite; [reflexivity|].
  intros Hc. rewrite Hc in E. discriminate E.
Qed.

(** C5. With the three inputs clamped non-negative, [maxLoan] is 80% of
    the home value and [maxCashOut = max(0, maxLoan - existing)]; a desired
    amount within [maxCashOut] is granted in full and [wasCapped] is false,
    a larger one is cut to [maxCashOut] and [wasCapped] is true; the new
    loan is the existing balance plus the granted amount. *)
Theorem C5_cash_out_capping `{MathHost}
    (currentHomeValue existingMortgageBalance desiredCashOutAmount newInterestRate : number) :
  let homeValue := CashOut.clampNonNegative currentHomeValue in
  let existing := CashOut.clampNonNegative existingMortgageBalance in
  let desired := CashOut.clampNonNegative desiredCashOutAmount in
  let res := CashOut.CashOutCalculator
               currentHomeValue existingMortgageBalance desiredCashOutAmount newInterestRate in
  CashOut.maxLoanAllowed res = (homeValue * 0.8%Q)%js
  /\ CashOut.maxCashOutAllowed res
     = Math_max 0%Q (CashOut.maxLoanAllowed res - existing)%js
  /\ ((desired <=? CashOut.maxCashOutAllowed res)%js = true ->
      CashOut.wasCapped res = false /\ CashOut.adjustedCashOut res =n= desired)
  /\ ((desired <=? CashOut.maxCashOutAllowed res)%js = false ->
      CashOut.wasCapped res = true
      /\ CashOut.adjustedCashOut res =n= CashOut.maxCashOutAllowed res)
  /\ CashOut.newLoanAmount res = (existing + CashOut.adjustedCashOut res)%js.
Proof.
  cbv zeta.
  destruct (cashout_values currentHomeValue existingMortgageBalance
              desiredCashOutAmount newInterestRate) as (_ & Hm & Hc & _ & Hw & _).
  cbv zeta in Hm, Hc, Hw.
  split; [reflexivity|]. split; [reflexivity|].
  split; [|split; [|reflexivity]]; rewrite Hm, Hc, Hw;
    change CashOut.clampNonNegative with Purchase.clampNonNegative;
    rewrite !clampNonNegative_nonneg; simpl le.
  - intros Hle. rewrite Hle. split; [reflexivity|].
    apply Qle_bool_iff in Hle. simpl. apply Q.min_l. exact Hle.
  - intros Hle. rewrite Hle. split; [reflexivity|].
    simpl. apply Q.min_r. apply Qlt_le_weak, Qnot_le_lt.
    intros Hx. apply Qle_bool_iff in Hx. congruence.
Qed.

Lemma C5_cash_out_capping_witness :
  (CashOut.clampNonNegative 50000%Q
   <=? CashOut.maxCashOutAllowed
         (@CashOut.CashOutCalculator silent_host 500000%Q 250000%Q 50000%Q 6.75%Q))%js = true
  /\ CashOut.wasCapped
       (@CashOut.CashOutCalculator silent_host 500000%Q 250000%Q 50000%Q 6.75%Q) = false.
Proof.
  split; [reflexivity|].
  apply (proj1 (proj2 (proj2 (@C5_cash_out_capping silent_host
                                500000%Q 250000%Q 50000%Q 6.75%Q)))).
  reflexivity.
Defined.

(** C10, as the code has it.  The loan-to-value percentage is guarded
    against a home value of 0: it is 0 when the clamped home value is 0 and
    [newLoanAmount / homeValue * 100] when the home value is greater than
    0, one of the two always being the case; it is never [NaN] and never
    below 0.  That it is a finite number is not part of it: the quotient
    of doubles overflows for a small enough home value. *)
Theorem C10_ltv_zero_guard `{MathHost}
    (currentHomeValue existingMortgageBalance desiredCashOutAmount newInterestRate : number) :
  let homeValue := CashOut.clampNonNegative currentHomeValue in
  let res := CashOut.CashOutCalculator
               currentHomeValue existingMortgageBalance desiredCashOutAmount newInterestRate in
  ((homeValue === 0%Q)%js = true -> CashOut.ltvPercent res = Finite 0)
  /\ ((homeValue >? 0%Q)%js = true ->
      CashOut.ltvPercent res = (CashOut.newLoanAmount res / homeValue * 100%Q)%js)
  /\ (homeValue === 0%Q)%js || (homeValue >? 0%Q)%js = true
  /\ (CashOut.ltvPercent res === CashOut.ltvPercent res)%js = true
  /\ (CashOut.ltvPercent res <? 0%Q)%js = false.
Proof.
  cbv zeta.
  destruct (cashout_values currentHomeValue existingMortgageBalance
              desiredCashOutAmount newInterestRate) as (_ & _ & _ & Hl & _ & Hv).
  cbv zeta in Hl, Hv. rewrite Hv, Hl.
  change CashOut.clampNonNegative with Purchase.clampNonNegative.
  rewrite !clampNonNegative_nonneg. unfold gt. simpl strict_eq at 1 2. simpl lt at 1 2.
  pose proof (nonneg_ge0 currentHomeValue) as Hh.
  pose proof (nonneg_ge0 existingMortgageBalance) as He.
  pose proof (nonneg_ge0 desiredCashOutAmount) as Hd.
  destruct (Qle_bool (Spec.nonneg currentHomeValue) 0) eqn:E; simpl negb; cbv iota.
  - split; [reflexivity|]. split; [discriminate|]. split; [|split; reflexivity].
    apply Qle_bool_iff in E. rewrite orb_false_r. apply Qeq_bool_iff. lra.
  - assert (0 < Spec.nonneg currentHomeValue)%Q as Hpos
      by (apply Qnot_le_lt; intros Hx; apply Qle_bool_iff in Hx; congruence).
    split.
    { intros Hz. apply Qeq_bool_iff in Hz. lra. }
    split.
    { intros _. rewrite div_Finite; [reflexivity | lra]. }
    split; [apply orb_true_r|].
    cbn [strict_eq lt]. split; [apply Qeq_bool_refl|].
    apply negb_false_iff, Qle_bool_iff.
    assert (0 <= Qmin (Spec.nonneg desiredCashOutAmount)
                   (Qmax 0 (Spec.nonneg currentHomeValue * 0.8
                            - Spec.nonneg existingMortgageBalance)))%Q as Hc
      by (apply Q.min_glb; [exact Hd | apply Q.le_max_l]).
    apply Qmult_le_0_compat; [|discriminate].
    apply Qle_shift_div_l; [exact Hpos | lra].
Qed.

Lemma C10_ltv_zero_guard_witness :
  (CashOut.clampNonNegative 0%Q === 0%Q)%js = true
  /\ CashOut.ltvPercent
       (@CashOut.CashOutCalculator silent_host 0%Q 250000%Q 50000%Q 6.75%Q) = Finite 0.
Proof.
  split; [reflexivity|].
  apply (proj1 (@C10_ltv_zero_guard silent_host 0%Q 250000%Q 50000%Q 6.75%Q)).
  reflexivity.
Defined.

(** ** Refinance break-even *)

(** No number is both [<= 0] and [> 0]. *)
Lemma le0_not_gt0 (x : number) : (x <=? 0%Q)%js = true -> (x >? 0%Q)%js = false.
Proof.
  destruct x as [q| | |]; try discriminate; try reflexivity.
  unfold gt. cbn [le lt]. intros ->. reflexivity.
Qed.

(** C6. Old and new payments are computed over the same term; the monthly
    saving is their difference; closing costs are clamped before they are
    divided; with a saving greater than 0 the break-even is the ceiling of
    the clamped closing costs over the saving; with a saving of 0 or less,
    and whenever the saving is not greater than 0, it is [Infinity] and no
    month count is computed. *)
Theorem C6_refinance_break_even `{MathHost}
    (originalLoanBalance currentRate newRate newTermYears closingCosts : number) :
  let res := Refinance.RefinanceCalculator
               originalLoanBalance currentRate newRate newTermYears closingCosts in
  Refinance.oldMonthlyPayment res
  = Refinance.calculateMonthlyPrincipalAndInterest originalLoanBalance currentRate newTermYears
  /\ Refinance.newMonthlyPayment res
     = Refinance.calculateMonthlyPrincipalAndInterest originalLoanBalance newRate newTermYears
  /\ Refinance.monthlySavings res
     = (Refinance.oldMonthlyPayment res - Refinance.newMonthlyPayment res)%js
  /\ ((Refinance.monthlySavings res >? 0%Q)%js = true ->
      Refinance.breakEvenMonths res
      = Math_ceil (Refinance.clampNonNegative closingCosts / Refinance.monthlySavings res)%js)
  /\ ((Refinance.monthlySavings res <=? 0%Q)%js = true ->
      Refinance.breakEvenMonths res = PosInf)
  /\ ((Refinance.monthlySavings res >? 0%Q)%js = false ->
      Refinance.breakEvenMonths res = PosInf).
Proof.
  cbv zeta. unfold Refinance.RefinanceCalculator.
  cbn [Refinance.oldMonthlyPayment Refinance.newMonthlyPayment Refinance.monthlySavings
       Refinance.breakEvenMonths].
  do 3 (split; [reflexivity|]).
  split; [intros ->; reflexivity|].
  split; [intros Hle; rewrite (le0_not_gt0 _ Hle); reflexivity|].
  intros ->. reflexivity.
Qed.

Lemma C6_refinance_break_even_witness :
  (Refinance.monthlySavings
     (@Refinance.RefinanceCalculator silent_host 1200%Q 12%Q 0%Q 1%Q 25%Q)
   >? 0%Q)%js = true
  /\ Refinance.breakEvenMonths
       (@Refinance.RefinanceCalculator silent_host 1200%Q 12%Q 0%Q 1%Q 25%Q)
     = Math_ceil
         (Refinance.clampNonNegative 25%Q
          / Refinance.monthlySavings
              (@Refinance.RefinanceCalculator silent_host 1200%Q 12%Q 0%Q 1%Q 25%Q))%js
  /\ Refinance.breakEvenMonths
       (@Refinance.RefinanceCalculator silent_host 1200%Q 12%Q 0%Q 1%Q 25%Q)
     =n= 4%Q.
Proof.
  pose proof (@C6_refinance_break_even silent_host 1200%Q 12%Q 0%Q 1%Q 25%Q) as T.
  cbv zeta in T. destruct T as (_ & _ & _ & Tgt & _).
  assert ((Refinance.monthlySavings
             (@Refinance.RefinanceCalculator silent_host 1200%Q 12%Q 0%Q 1%Q 25%Q)
           >? 0%Q)%js = true) as Hgt.
  { vm_compute. reflexivity. }
  split; [exact Hgt|]. split; [exact (Tgt Hgt)|].
  vm_compute. reflexivity.
Defined.

(** ** Rate buydown *)

(** C7. In temporary-2-1 mode the schedule has exactly three rows, at
    rates [max(0, base-2)], [max(0, base-1)], [max(0, base)], none of them
    below 0; each row's monthly payment is the payment of the loan at the
    row's rate and its annual payment twelve times that; rows 1 and 2
    carry [savingsMonthly = basePayment - payment], where [basePayment] is
    the payment at the base rate, and twelve times that as
    [savingsAnnual]; row 3 has neither field.  In none mode the schedule
    is one row for the whole term, at the base rate and the base payment,
    with neither field. *)
Theorem C7_buydown_schedule `{MathHost} (loanAmount baseRatePercent : number) :
  let payment rate :=
    RateBuydown.calculateMonthlyPrincipalAndInterest loanAmount rate RateBuydown.TERM_YEARS in
  let basePayment := payment baseRatePercent in
  (let res :=
     RateBuydown.RateBuydownCalculator RateBuydown.temporary_2_1 loanAmount baseRatePercent in
   RateBuydown.baseMonthlyPayment res = basePayment
   /\ exists r1 r2 r3 : RateBuydown.ScheduleRow,
       RateBuydown.schedule res = [r1; r2; r3]
       /\ RateBuydown.periodLabel r1 = "Year 1"%string
       /\ RateBuydown.periodLabel r2 = "Year 2"%string
       /\ RateBuydown.periodLabel r3 = "Year 3–30"%string
       /\ RateBuydown.ratePercent r1 = Math_max 0%Q (baseRatePercent - 2%Q)%js
       /\ RateBuydown.ratePercent r2 = Math_max 0%Q (baseRatePercent - 1%Q)%js
       /\ RateBuydown.ratePercent r3 = Math_max 0%Q baseRatePercent
       /\ (RateBuydown.ratePercent r1 <? 0%Q)%js = false
       /\ (RateBuydown.ratePercent r2 <? 0%Q)%js = false
       /\ (RateBuydown.ratePercent r3 <? 0%Q)%js = false
       /\ RateBuydown.monthlyPayment r1 = payment (RateBuydown.ratePercent r1)
       /\ RateBuydown.monthlyPayment r2 = payment (RateBuydown.ratePercent r2)
       /\ RateBuydown.monthlyPayment r3 = payment (RateBuydown.ratePercent r3)
       /\ RateBuydown.annualPayment r1 = (RateBuydown.monthlyPayment r1 * 12%Q)%js
       /\ RateBuydown.annualPayment r2 = (RateBuydown.monthlyPayment r2 * 12%Q)%js
       /\ RateBuydown.annualPayment r3 = (RateBuydown.monthlyPayment r3 * 12%Q)%js
       /\ RateBuydown.savingsMonthly r1
          = Some (basePayment - payment (Math_max 0%Q (baseRatePercent - 2%Q)))%js
       /\ RateBuydown.savingsAnnual r1
          = Some ((basePayment - payment (Math_max 0%Q (baseRatePercent - 2%Q))) * 12%Q)%js
       /\ RateBuydown.savingsMonthly r2
          = Some (basePayment - payment (Math_max 0%Q (baseRatePercent - 1%Q)))%js
       /\ RateBuydown.savingsAnnual r2
          = Some ((basePayment - payment (Math_max 0%Q (baseRatePercent - 1%Q))) * 12%Q)%js
       /\ RateBuydown.savingsMonthly r3 = None
       /\ RateBuydown.savingsAnnual r3 = None)
  /\ (let res :=
        RateBuydown.RateBuydownCalculator RateBuydown.none loanAmount baseRatePercent in
      RateBuydown.baseMonthlyPayment res = basePayment
      /\ exists row : RateBuydown.ScheduleRow,
          RateBuydown.schedule res = [row]
          /\ RateBuydown.periodLabel row = "Year 1–30"%string
          /\ RateBuydown.ratePercent row = Math_max 0%Q baseRatePercent
          /\ RateBuydown.monthlyPayment row = basePayment
          /\ RateBuydown.annualPayment row = (basePayment * 12%Q)%js
          /\ RateBuydown.savingsMonthly row = None
          /\ RateBuydown.savingsAnnual row = None).
Proof.
  cbv zeta. split.
  - split; [reflexivity|]. do 3 eexists. split; [reflexivity|].
    cbn [RateBuydown.periodLabel RateBuydown.ratePercent RateBuydown.monthlyPayment
         RateBuydown.annualPayment RateBuydown.savingsMonthly RateBuydown.savingsAnnual].
    repeat split; apply Math_max0_not_negative.
  - split; [reflexivity|]. eexists. split; [reflexivity|]. repeat split.
Qed.

(** ** Rent versus buy *)

Lemma Qmax_inject_Z (a b : Z) : Qmax (inject_Z a) (inject_Z b) = inject_Z (Z.max a b).
Proof.
  unfold Qmax, GenericMinMax.gmax, Z.max, Qcompare. simpl.
  rewrite !Z.mul_1_r. now destruct (a ?= b)%Z.
Qed.

Lemma Qmin_inject_Z (a b : Z) : Qmin (inject_Z a) (inject_Z b) = inject_Z (Z.min a b).
Proof.
  unfold Qmin, GenericMinMax.gmin, Z.min, Qcompare. simpl.
  rewrite !Z.mul_1_r. now destruct (a ?= b)%Z.
Qed.

Lemma le_of_Z (a b : Z) : (of_Z a <=? of_Z b)%js = (a <=? b)%Z.
Proof.
  unfold of_Z, le. apply eq_true_iff_eq.
  rewrite Qle_bool_iff, Z.leb_le, Zle_Qle. reflexivity.
Qed.

Lemma lt_of_Z (a b : Z) : (of_Z a <? of_Z b)%js = (a <? b)%Z.
Proof.
  unfold of_Z, lt. rewrite Z.ltb_antisym. f_equal. apply (le_of_Z b a).
Qed.

Lemma years_value (d : Q) :
  Math_min 50%Q (Math_max 1%Q (Math_round (Finite d))) = of_Z (Spec.years d).
Proof.
  unfold Math_round, of_Z, Spec.years. fold (Spec.round d).
  change (Finite 1) with (Finite (inject_Z 1)).
  change (Finite 50) with (Finite (inject_Z 50)).
  simpl Math_max. rewrite Qmax_inject_Z. simpl Math_min. now rewrite Qmin_inject_Z.
Qed.

Lemma years_range (d : Q) : (1 <= Spec.years d <= 50)%Z.
Proof. unfold Spec.years. lia. Qed.

Lemma find_snoc {A : Type} (f : A -> bool) (l : list A) (x : A) :
  find f (l ++ [x])
  = match find f l with
    | Some y => Some y
    | None => if f x then Some x else None
    end.
Proof.
  induction l as [|a l IH]; simpl; [reflexivity|].
  destruct (f a); [reflexivity | exact IH].
Qed.

Lemma find_first {A : Type} (f : A -> bool) (l : list A) (x : A) :
  find f l = Some x ->
  exists l1 l2, l = l1 ++ x :: l2 /\ f x = true /\ forall y, In y l1 -> f y = false.
Proof.
  induction l as [|a l IH]; simpl; [discriminate|].
  destruct (f a) eqn:Fa.
  - intros [= ->]. exists [], l. repeat split; [exact Fa | intros y []].
  - intros Hx. destruct (IH Hx) as (l1 & l2 & -> & Fx & Hl1).
    exists (a :: l1), l2. repeat split; [exact Fx|].
    intros y [<-|Hy]; [exact Fa | apply Hl1, Hy].
Qed.

Section YearLoopFacts.
Context `{MathHost}.
Variables price0 rent0 rentInfl appr downPayment monthlyMortgagePayment r : number.

Let body := RentVsBuy.year_body price0 rent0 rentInfl appr downPayment
                monthlyMortgagePayment r.
Let loop := RentVsBuy.year_loop price0 rent0 rentInfl appr downPayment
                monthlyMortgagePayment r.

(** What one pass of the body does to the points and to the crossover. *)
Lemma year_body_effect (year : Z) (s : RentVsBuy.Loop) :
    exists p : RentVsBuy.DataPoint,
      RentVsBuy.year p = of_Z year
      /\ RentVsBuy.points (body year s) = RentVsBuy.points s ++ [p]
      /\ RentVsBuy.firstCrossover (body year s)
         = match RentVsBuy.firstCrossover s with
           | None => if crosses p then Some (RentVsBuy.year p) else None
           | Some y => Some y
           end.
  Proof.
    unfold body, RentVsBuy.year_body.
    destruct (RentVsBuy.month_loop 12 monthlyMortgagePayment r
                (RentVsBuy.remainingBalance s) (RentVsBuy.cumulativePrincipalPaid s))
      as [bal paid].
    eexists. split; [|split]; cbn [RentVsBuy.points RentVsBuy.firstCrossover];
      [| reflexivity | reflexivity]. reflexivity.
  Qed.

Lemma year_loop_runs (N : Z) (k : nat) :
    forall (y : nat) (s : RentVsBuy.Loop),
      (Z.of_nat y + Z.of_nat k = N + 1)%Z ->
      crossover_tracks s ->
      exists s' : RentVsBuy.Loop,
        (forall fuel : nat, (k < fuel)%nat ->
           loop fuel (of_Z N) (Z.of_nat y) s = Some s')
        /\ crossover_tracks s'
        /\ map RentVsBuy.year (RentVsBuy.points s')
           = map RentVsBuy.year (RentVsBuy.points s)
             ++ map (fun i => of_Z (Z.of_nat i)) (seq y k).
  Proof.
    induction k as [|k IH]; intros y s Hy Hs.
    - exists s. repeat split; [| exact Hs | now rewrite app_nil_r].
      intros fuel Hf. destruct fuel as [|fuel]; [lia|].
      unfold loop. cbn [RentVsBuy.year_loop]. rewrite le_of_Z.
      now replace (Z.of_nat y <=? N)%Z with false by (symmetry; apply Z.leb_gt; lia).
    - destruct (year_body_effect (Z.of_nat y) s) as (p & Hp & Hpts & Hcross).
      destruct (IH (S y) (body (Z.of_nat y) s)) as (s' & Hrun & Hs' & Hyears); [lia | |].
      + unfold crossover_tracks in *. rewrite Hcross, Hpts, find_snoc, Hs.
        destruct (find crosses (RentVsBuy.points s)); simpl; [reflexivity|].
        now destruct (crosses p).
      + exists s'. repeat split; [| exact Hs' |].
        * intros fuel Hf. destruct fuel as [|fuel]; [lia|].
          unfold loop. cbn [RentVsBuy.year_loop]. rewrite le_of_Z.
          replace (Z.of_nat y <=? N)%Z with true by (symmetry; apply Z.leb_le; lia).
          fold body. fold loop.
          replace (Z.of_nat y + 1)%Z with (Z.of_nat (S y)) by lia.
          apply Hrun. lia.
        * rewrite Hyears, Hpts, map_app. simpl. rewrite Hp, <- app_assoc. reflexivity.
  Qed.
End YearLoopFacts.

(** In a list whose years count up from [a], the point after [l1] holds
    year [a + length l1] and every later point a larger year. *)
Lemma years_after (l1 l2 : list RentVsBuy.DataPoint) (p : RentVsBuy.DataPoint) :
  forall (a n : nat),
    map RentVsBuy.year (l1 ++ p :: l2) = map (fun i => of_Z (Z.of_nat i)) (seq a n) ->
    RentVsBuy.year p = of_Z (Z.of_nat (a + List.length l1))
    /\ forall p', In p' l2 ->
         exists j, (a + List.length l1 < j)%nat /\ RentVsBuy.year p' = of_Z (Z.of_nat j).
Proof.
  induction l1 as [|x l1 IH]; intros a n Hmap; destruct n as [|n]; try discriminate Hmap.
  - simpl in Hmap. injection Hmap as Hp Hl2. rewrite Nat.add_0_r. split; [exact Hp|].
    intros p' Hin. apply (in_map RentVsBuy.year) in Hin. rewrite Hl2 in Hin.
    apply in_map_iff in Hin. destruct Hin as (j & Hj & Hseq).
    apply in_seq in Hseq. exists j. split; [lia | now symmetry].
  - simpl in Hmap. injection Hmap as _ Hrest.
    destruct (IH (S a) n Hrest) as [Hp Hlater]. simpl List.length.
    rewrite Nat.add_succ_r. split; [exact Hp | exact Hlater].
Qed.

Lemma crossover_is_first (l : list RentVsBuy.DataPoint) (n : nat) :
  map RentVsBuy.year l = years_1_to n ->
  match option_map RentVsBuy.year (find crosses l) with
  | Some y =>
      exists p, In p l /\ RentVsBuy.year p = y /\ crosses p = true
        /\ forall p', In p' l -> (RentVsBuy.year p' <? y)%js = true -> crosses p' = false
  | None => forall p, In p l -> crosses p = false
  end.
Proof.
  intros Hyears. destruct (find crosses l) as [p|] eqn:F; simpl.
  - destruct (find_first _ _ _ F) as (l1 & l2 & -> & Fp & Hl1).
    exists p. repeat split; [apply in_elt | exact Fp |].
    destruct (years_after l1 l2 p 1 n Hyears) as [Hp Hlater].
    intros p' Hin Hlt. apply in_app_or in Hin. destruct Hin as [Hin|[<-|Hin]].
    + apply Hl1, Hin.
    + rewrite Hp, lt_of_Z, Z.ltb_irrefl in Hlt. discriminate Hlt.
    + destruct (Hlater p' Hin) as (j & Hj & Hp'). rewrite Hp, Hp', lt_of_Z in Hlt.
      apply Z.ltb_lt in Hlt. lia.
  - intros p Hin. apply (find_none _ _ F), Hin.
Qed.

(** C4. For every finite duration the projection has exactly
    [clamp(round(durationYears), 1, 50)] points, their years are
    1, 2, ..., N in that order, and the crossover year, when there is one,
    is the year of a point whose net buy cost is at most its cumulative
    rent cost while no point of an earlier year is; when no point crosses,
    the crossover is null.  The loop ends within 51 guard tests. *)
Theorem C4_projection_and_crossover `{MathHost}
    (targetHomePrice currentMonthlyRent rentInflationPct homeAppreciationPct : number)
    (durationYears : Q) :
  exists res : RentVsBuy.Result,
    (forall fuel : nat, (51 <= fuel)%nat ->
       RentVsBuy.RentVsBuyCalculator fuel targetHomePrice currentMonthlyRent
         rentInflationPct homeAppreciationPct (Finite durationYears) = Some res)
    /\ Z.of_nat (List.length (RentVsBuy.data res)) = Spec.years durationYears
    /\ map RentVsBuy.year (RentVsBuy.data res)
       = years_1_to (Z.to_nat (Spec.years durationYears))
    /\ match RentVsBuy.crossoverYear res with
       | Some y =>
           exists p, In p (RentVsBuy.data res) /\ RentVsBuy.year p = y
             /\ crosses p = true
             /\ forall p', In p' (RentVsBuy.data res) ->
                  (RentVsBuy.year p' <? y)%js = true -> crosses p' = false
       | None => forall p, In p (RentVsBuy.data res) -> crosses p = false
       end.
Proof.
  pose proof (years_range durationYears) as HN.
  unfold RentVsBuy.RentVsBuyCalculator. rewrite years_value.
  set (N := Spec.years durationYears) in *.
  match goal with
  | |- context [RentVsBuy.year_loop ?a ?b ?c ?d ?e ?f ?g _ _ 1%Z ?s] =>
      destruct (year_loop_runs a b c d e f g N (Z.to_nat N) 1 s)
        as (s' & Hrun & Htr & Hyrs); [lia | reflexivity |]
  end.
  change (Z.of_nat 1) with 1%Z in Hrun. simpl app in Hyrs. fold (years_1_to (Z.to_nat N)) in Hyrs.
  eexists. split; [|split; [|split]].
  - intros fuel Hfuel. rewrite Hrun by lia. reflexivity.
  - cbn [RentVsBuy.data]. rewrite <- (length_map RentVsBuy.year), Hyrs.
    unfold years_1_to. rewrite length_map, length_seq. lia.
  - exact Hyrs.
  - cbn [RentVsBuy.data RentVsBuy.crossoverYear]. rewrite Htr.
    apply (crossover_is_first _ _ Hyrs).
Qed.

(** ** Runs of the code on doubles *)

Section DoubleRuns.
Import Floats.
#[local] Set Warnings "-inexact-float".
Local Open Scope float_scope.




(** The loan-to-value percentage does not depend on [Math.pow]: with a
    home value of 1e-305 and a balance of 250000 the quotient
    [loan / homeValue] is beyond the largest double. *)
Lemma double_ltv_overflows (Math_pow : float -> float -> float) (newInterestRate : float) :
  Double.ltvPercent (Double.CashOutCalculator Math_pow 1e-305 250000 0 newInterestRate)
  = infinity.
Proof.
  unfold Double.CashOutCalculator. cbn [Double.ltvPercent]. vm_compute. reflexivity.
Qed.

(** C10 as worded fails on doubles: with a home value of 1e-305 and a
    balance of 250000 the home value is greater than 0, the quotient
    [loan / homeValue] overflows, and the percentage is [Infinity]. *)
Lemma C10_ltv_overflow_counterexample :
  (0 <? Double.clampNonNegative 1e-305) = true
  /\ Double.ltvPercent
       (Double.CashOutCalculator Double.pow_by_multiplication 1e-305 250000 0 6.75)
     = infinity.
Proof. split; [vm_compute; reflexivity | apply double_ltv_overflows]. Qed.

End DoubleRuns.

(** * Further properties of the code *)

(** No principal or no period: the payment is 0 at every rate. *)
Lemma monthlyPayment_degenerate (p a t : number) :
  (Spec.nonneg p == 0)%Q \/ Spec.periods t = 0%Z -> Spec.monthlyPayment p a t = 0%Q.
Proof.
  intros Hd. unfold Spec.monthlyPayment.
  replace (Qeq_bool (Spec.nonneg p) 0 || (Spec.periods t =? 0)%Z) with true; [reflexivity|].
  symmetry. apply orb_true_iff. destruct Hd as [Hp|Hn].
  - left. now apply Qeq_bool_iff.
  - right. now apply Z.eqb_eq.
Qed.

(** ** More on the refinance break-even *)

(** A payment never exceeds itself: a difference [x - x] is not greater
    than 0, whether it is 0 or, for a non-finite [x], [NaN]. *)
Lemma self_difference_not_positive (x : number) : ((x - x) >? 0%Q)%js = false.
Proof.
  destruct x as [q| | |]; try reflexivity.
  unfold gt, sub. cbn [neg add lt]. apply negb_false_iff, Qle_bool_iff. lra.
Qed.

(** X5. Refinancing at an unchanged rate never breaks even: old and new
    payment are the same number, nothing is saved, and the result is
    [Infinity] whatever the balance, the term and the closing costs. *)
Theorem same_rate_never_breaks_even `{MathHost}
    (originalLoanBalance rate newTermYears closingCosts : number) :
  let res := Refinance.RefinanceCalculator
               originalLoanBalance rate rate newTermYears closingCosts in
  Refinance.oldMonthlyPayment res = Refinance.newMonthlyPayment res
  /\ (Refinance.monthlySavings res >? 0%Q)%js = false
  /\ Refinance.breakEvenMonths res = PosInf.
Proof.
  cbv zeta. unfold Refinance.RefinanceCalculator.
  cbn [Refinance.oldMonthlyPayment Refinance.newMonthlyPayment Refinance.monthlySavings
       Refinance.breakEvenMonths].
  rewrite self_difference_not_positive. repeat split.
Qed.

(** ** More on the reverse mortgage *)

(** The age after [clamp(age, 0, 120)]. *)
Lemma clamp_age (x : number) :
  exists a : Q,
    ReverseMortgage.clamp x 0%Q 120%Q = Finite a /\ (0 <= a <= 120)%Q
    /\ match x with Finite q => (a == Qmin 120 (Qmax 0 q))%Q | _ => (a == 0)%Q end.
Proof.
  destruct x as [q| | |]; simpl.
  - exists (Qmin 120 (Qmax 0 q)). split; [reflexivity|]. split; [|reflexivity]. split.
    + apply Q.min_glb; [discriminate | apply Q.le_max_l].
    + apply Q.le_min_l.
  - exists 0%Q. repeat split; discriminate.
  - exists 0%Q. repeat split; discriminate.
  - exists 0%Q. repeat split; discriminate.
Qed.

(** The four bands of the percentage, each as a linear function of the
    clamped age. *)
Lemma pct_bands (x : number) :
  exists a q : Q,
    ReverseMortgage.clamp x 0%Q 120%Q = Finite a
    /\ ReverseMortgage.estimatedAvailabilityPct x = Finite q
    /\ (0 <= a <= 120)%Q
    /\ ((a < 62 /\ q == 0)
        \/ (62 <= a <= 69 /\ q == (7 # 20) + (a - 62) * (1 # 140))
        \/ (69 < a <= 79 /\ q == (9 # 20) + (a - 70) * (1 # 180))
        \/ (79 < a <= 95 /\ q == (11 # 20) + (a - 80) * (1 # 300))
        \/ (95 < a /\ q == 3 # 5))%Q.
Proof.
  destruct (clamp_age x) as (a & Ha & Hrange & _).
  unfold ReverseMortgage.estimatedAvailabilityPct. rewrite Ha. exists a.
  cbn [lt le].
  destruct (Qle_bool 62 a) eqn:E62; simpl negb; cbv iota.
  2:{ exists 0%Q. repeat split; try apply Hrange. left. split; [|reflexivity].
      apply Qnot_le_lt. intros Hc. apply Qle_bool_iff in Hc. congruence. }
  apply Qle_bool_iff in E62.
  destruct (Qle_bool a 69) eqn:E69.
  { apply Qle_bool_iff in E69. eexists. split; [reflexivity|]. split; [reflexivity|].
    split; [exact Hrange|]. right; left. split; [lra|]. field. }
  assert (69 < a)%Q as H69
    by (apply Qnot_le_lt; intros Hc; apply Qle_bool_iff in Hc; congruence).
  destruct (Qle_bool a 79) eqn:E79.
  { apply Qle_bool_iff in E79. eexists. split; [reflexivity|]. split; [reflexivity|].
    split; [exact Hrange|]. right; right; left. split; [lra|]. field. }
  assert (79 < a)%Q as H79
    by (apply Qnot_le_lt; intros Hc; apply Qle_bool_iff in Hc; congruence).
  eexists. split; [reflexivity|]. split; [reflexivity|]. split; [exact Hrange|].
  right; right; right. simpl Math_min.
  destruct (Qlt_le_dec 95 a) as [H95|H95].
  - right. split; [exact H95|]. rewrite (Q.min_r a 95) by lra. reflexivity.
  - left. split; [lra|]. rewrite (Q.min_l a 95) by exact H95. field.
Qed.

(** X7. The availability percentage is a finite number between 0 and 0.60 for
    every input, non-finite ones included; it is 0 below the clamped age
    62 and at least 0.35 from 62 on. *)
Theorem availability_bounds (age : number) :
  exists q : Q,
    ReverseMortgage.estimatedAvailabilityPct age = Finite q
    /\ (0 <= q <= 3 # 5)%Q
    /\ ((ReverseMortgage.clamp age 0%Q 120%Q <? 62%Q)%js = true -> (q == 0)%Q)
    /\ ((ReverseMortgage.clamp age 0%Q 120%Q <? 62%Q)%js = false -> (7 # 20 <= q)%Q).
Proof.
  destruct (pct_bands age) as (a & q & Ha & Hq & Hrange & Hb).
  exists q. rewrite Ha. cbn [lt]. split; [exact Hq|]. split; [|split].
  - destruct Hb as [[? E]|[[? E]|[[? E]|[[? E]|[? E]]]]]; split; lra.
  - intros Hlt. apply negb_true_iff in Hlt.
    assert (a < 62)%Q by (apply Qnot_le_lt; intros Hc; apply Qle_bool_iff in Hc; congruence).
    destruct Hb as [[? E]|[[? E]|[[? E]|[[? E]|[? E]]]]]; lra.
  - intros Hge. apply negb_false_iff, Qle_bool_iff in Hge.
    destruct Hb as [[? E]|[[? E]|[[? E]|[[? E]|[? E]]]]]; lra.
Qed.

Lemma availability_bounds_witness :
  (ReverseMortgage.clamp 40%Q 0%Q 120%Q <? 62%Q)%js = true
  /\ exists q : Q, ReverseMortgage.estimatedAvailabilityPct 40%Q = Finite q /\ (q == 0)%Q.
Proof.
  split; [reflexivity|].
  destruct (availability_bounds 40%Q) as (q & Hq & _ & H0 & _).
  exists q. split; [exact Hq | apply H0; reflexivity].
Defined.

(** X8. An older borrower is never offered a smaller percentage, the jumps
    between bands and the ages between two bands included. *)
Theorem availability_monotone (age1 age2 : Q) :
  (age1 <= age2)%Q ->
  (ReverseMortgage.estimatedAvailabilityPct age1
   <=? ReverseMortgage.estimatedAvailabilityPct age2)%js = true.
Proof.
  intros Hle.
  destruct (pct_bands age1) as (a1 & q1 & Hc1 & Hq1 & Hr1 & Hb1).
  destruct (pct_bands age2) as (a2 & q2 & Hc2 & Hq2 & Hr2 & Hb2).
  destruct (clamp_age age1) as (a1' & Ha1 & _ & Hv1).
  destruct (clamp_age age2) as (a2' & Ha2 & _ & Hv2).
  rewrite Hc1 in Ha1. injection Ha1 as <-. rewrite Hc2 in Ha2. injection Ha2 as <-.
  assert (a1 <= a2)%Q as Ha.
  { rewrite Hv1, Hv2. apply Q.min_le_compat_l, Q.max_le_compat_l, Hle. }
  rewrite Hq1, Hq2. cbn [le]. apply Qle_bool_iff.
  destruct Hb1 as [[? E1]|[[? E1]|[[? E1]|[[? E1]|[? E1]]]]];
    destruct Hb2 as [[? E2]|[[? E2]|[[? E2]|[[? E2]|[? E2]]]]]; lra.
Qed.

Lemma availability_monotone_witness :
  (69 <= 70)%Q
  /\ (ReverseMortgage.estimatedAvailabilityPct 69%Q
      <=? ReverseMortgage.estimatedAvailabilityPct 70%Q)%js = true.
Proof.
  split; [discriminate|]. apply (availability_monotone 69 70). discriminate.
Defined.

(** X9. For every input the two limits are finite numbers, the net limit
    is [max(0, gross - balance)] and lies between 0 and the gross limit,
    the gross limit is the clamped home value times the percentage and at
    most the clamped home value times 0.6, and the percentage is 0 exactly
    when the borrower is ineligible. *)
Theorem reverse_mortgage_limits
    (youngestBorrowerAge homeValue currentMortgageBalance : number) :
  let res := ReverseMortgage.ReverseMortgageCalculator
               youngestBorrowerAge homeValue currentMortgageBalance in
  let gross := ReverseMortgage.grossPrincipalLimit res in
  let net := ReverseMortgage.netPrincipalLimit res in
  Number_isFinite gross = true
  /\ Number_isFinite net = true
  /\ gross = (ReverseMortgage.clampNonNegative homeValue
              * ReverseMortgage.availabilityPct res)%js
  /\ net = Math_max 0%Q (gross - ReverseMortgage.clampNonNegative currentMortgageBalance)%js
  /\ (0%Q <=? net)%js = true
  /\ (net <=? gross)%js = true
  /\ (gross <=? ReverseMortgage.clampNonNegative homeValue * 0.6%Q)%js = true
  /\ (ReverseMortgage.availabilityPct res === 0%Q)%js
     = negb (ReverseMortgage.ageEligible res).
Proof.
  cbv zeta. unfold ReverseMortgage.ReverseMortgageCalculator.
  cbn [ReverseMortgage.grossPrincipalLimit ReverseMortgage.netPrincipalLimit
       ReverseMortgage.availabilityPct ReverseMortgage.ageEligible].
  change ReverseMortgage.clampNonNegative with Purchase.clampNonNegative.
  rewrite !clampNonNegative_nonneg.
  pose proof (nonneg_ge0 homeValue) as Hh.
  pose proof (nonneg_ge0 currentMortgageBalance) as Hb.
  pose proof (nonneg_ge0 youngestBorrowerAge) as Hage.
  destruct (pct_bands (Spec.nonneg youngestBorrowerAge)) as (a & q & Hc & Hq & Hr & Hbands).
  destruct (clamp_age (Spec.nonneg youngestBorrowerAge)) as (a' & Ha' & _ & Hv).
  rewrite Hc in Ha'. injection Ha' as <-.
  set (y := Spec.nonneg youngestBorrowerAge) in *.
  rewrite Hq. cbn [mul sub neg add Math_max strict_eq ge le Number_isFinite].
  set (h := Spec.nonneg homeValue) in *. set (b := Spec.nonneg currentMortgageBalance) in *.
  assert (0 <= q <= 3 # 5)%Q as Hq01
    by (destruct Hbands as [[? E]|[[? E]|[[? E]|[[? E]|[? E]]]]]; split; lra).
  assert (0 <= h * q)%Q as Hg by (apply Qmult_le_0_compat; lra).
  do 4 (split; [reflexivity|]).
  split; [apply Qle_bool_iff, Q.le_max_l|].
  split; [apply Qle_bool_iff, Q.max_lub; lra|].
  split.
  { apply Qle_bool_iff. rewrite !(Qmult_comm h). apply Qmult_le_compat_r; [|exact Hh].
    setoid_replace (0.6)%Q with (3 # 5)%Q by reflexivity. apply Hq01. }
  rewrite (Q.max_r 0 y Hage) in Hv.
  destruct (Qle_bool 62 y) eqn:E; simpl negb.
  - apply Qle_bool_iff in E. apply Qeq_bool_false. intros Hz.
    assert (62 <= a)%Q by (rewrite Hv; apply Q.min_glb; [discriminate | exact E]).
    destruct Hbands as [[? E']|[[? E']|[[? E']|[[? E']|[? E']]]]]; lra.
  - apply Qeq_bool_iff.
    assert (y < 62)%Q by (apply Qnot_le_lt; intros Hc'; apply Qle_bool_iff in Hc'; congruence).
    assert (a <= y)%Q by (rewrite Hv; apply Q.le_min_r).
    destruct Hbands as [[? E']|[[? E']|[[? E']|[[? E']|[? E']]]]]; lra.
Qed.

(** X10. [clamp] always answers a finite number within the bounds; a value
    already within them is kept, and every non-finite value, [Infinity]
    included, becomes the lower bound. *)
Theorem clamp_within_bounds (n : number) (min max : Q) :
  (min <= max)%Q ->
  exists q : Q,
    ReverseMortgage.clamp n min max = Finite q
    /\ (min <= q <= max)%Q
    /\ (Number_isFinite n = false -> q = min)
    /\ (forall x : Q, n = Finite x -> (min <= x <= max)%Q -> (q == x)%Q).
Proof.
  intros Hle. unfold ReverseMortgage.clamp.
  destruct n as [x| | |]; simpl.
  - exists (Qmin max (Qmax min x)). split; [reflexivity|]. split; [|split].
    + split; [apply Q.min_glb; [exact Hle | apply Q.le_max_l] | apply Q.le_min_l].
    + discriminate.
    + intros x' [= <-] [Hlo Hhi]. rewrite (Q.max_r min x Hlo). apply Q.min_r. exact Hhi.
  - exists min. repeat split; try lra; try apply Qle_refl. discriminate.
  - exists min. repeat split; try lra; try apply Qle_refl. discriminate.
  - exists min. repeat split; try lra; try apply Qle_refl. discriminate.
Qed.

Lemma clamp_within_bounds_witness :
  exists q : Q,
    ReverseMortgage.clamp PosInf 0%Q 120%Q = Finite q /\ (0 <= q <= 120)%Q.
Proof.
  destruct (clamp_within_bounds PosInf 0 120) as (q & Hq & Hr & _); [discriminate|].
  exists q. split; [exact Hq | exact Hr].
Defined.

(** ** More on the cash-out refinance *)

(** X11. The granted cash is never below 0, never above what was asked and
    never above what is allowed; when the existing balance is already
    above the maximum loan, no cash is granted and the loan stays as it
    is; and [wasCapped] is set exactly when less than the desired amount
    is granted. *)
Theorem cash_out_within_limits `{MathHost}
    (currentHomeValue existingMortgageBalance desiredCashOutAmount newInterestRate : number) :
  let existing := CashOut.clampNonNegative existingMortgageBalance in
  let desired := CashOut.clampNonNegative desiredCashOutAmount in
  let res := CashOut.CashOutCalculator
               currentHomeValue existingMortgageBalance desiredCashOutAmount newInterestRate in
  (0%Q <=? CashOut.adjustedCashOut res)%js = true
  /\ (CashOut.adjustedCashOut res <=? desired)%js = true
  /\ (CashOut.adjustedCashOut res <=? CashOut.maxCashOutAllowed res)%js = true
  /\ ((CashOut.maxLoanAllowed res <? existing)%js = true ->
      (CashOut.adjustedCashOut res === 0%Q)%js = true
      /\ (CashOut.newLoanAmount res === existing)%js = true)
  /\ CashOut.wasCapped res = (CashOut.adjustedCashOut res <? desired)%js.
Proof.
  cbv zeta.
  destruct (cashout_values currentHomeValue existingMortgageBalance
              desiredCashOutAmount newInterestRate) as (HM & Hm & Hc & Hl & Hw & _).
  cbv zeta in HM, Hm, Hc, Hl, Hw. rewrite HM, Hm, Hc, Hl, Hw. clear HM Hm Hc Hl Hw.
  change CashOut.clampNonNegative with Purchase.clampNonNegative.
  rewrite !clampNonNegative_nonneg.
  pose proof (nonneg_ge0 currentHomeValue) as Hh.
  pose proof (nonneg_ge0 existingMortgageBalance) as He.
  pose proof (nonneg_ge0 desiredCashOutAmount) as Hd.
  set (h := Spec.nonneg currentHomeValue) in *.
  set (e := Spec.nonneg existingMortgageBalance) in *.
  set (d := Spec.nonneg desiredCashOutAmount) in *.
  set (m := Qmax 0 (h * 0.8 - e)).
  assert (0 <= m)%Q as Hm0 by apply Q.le_max_l.
  assert (0 <= Qmin d m <= d)%Q as Hc
    by (split; [apply Q.min_glb; assumption | apply Q.le_min_l]).
  assert (Qmin d m <= m)%Q as Hcm by apply Q.le_min_r.
  cbn [le lt strict_eq].
  split; [apply Qle_bool_iff, Hc|]. split; [apply Qle_bool_iff, Hc|].
  split; [apply Qle_bool_iff, Hcm|]. split.
  - intros Hlt. apply negb_true_iff in Hlt.
    assert (h * 0.8 < e)%Q as Hlt'
      by (apply Qnot_le_lt; intros Hx; apply Qle_bool_iff in Hx; congruence).
    assert (m == 0)%Q as Em by (apply Q.max_l; lra).
    assert (Qmin d m == 0)%Q as Ec by lra.
    split; apply Qeq_bool_iff; lra.
  - f_equal. apply eq_true_iff_eq. rewrite !Qle_bool_iff. split.
    + intros Hdm. rewrite (Q.min_l d m Hdm). apply Qle_refl.
    + intros Hdc. lra.
Qed.

Lemma cash_out_within_limits_witness :
  (CashOut.maxLoanAllowed
     (@CashOut.CashOutCalculator silent_host 100000%Q 90000%Q 5000%Q 6.75%Q)
   <? CashOut.clampNonNegative 90000%Q)%js = true
  /\ (CashOut.adjustedCashOut
        (@CashOut.CashOutCalculator silent_host 100000%Q 90000%Q 5000%Q 6.75%Q)
      === 0%Q)%js = true.
Proof.
  split; [reflexivity|].
  pose proof (@cash_out_within_limits silent_host 100000%Q 90000%Q 5000%Q 6.75%Q) as T.
  cbv zeta in T. destruct T as (_ & _ & _ & T & _).
  exact (proj1 (T eq_refl)).
Defined.

(** ** The monthly amortization loop *)

Lemma month_loop_bounded (months : nat) (payment r : Q) :
  forall balance paid : Q,
    (0 <= balance)%Q ->
    exists balance' paid' : Q,
      RentVsBuy.month_loop months payment r balance paid = (Finite balance', Finite paid')
      /\ (0 <= balance' <= balance)%Q
      /\ (paid <= paid')%Q.
Proof.
  induction months as [|months IH]; intros balance paid Hb.
  - exists balance, paid. split; [reflexivity|]. repeat split; lra.
  - cbn [RentVsBuy.month_loop le].
    destruct (Qle_bool balance 0) eqn:E.
    + exists balance, paid. split; [reflexivity|]. repeat split; lra.
    + cbn [mul sub neg add Math_max].
      set (pp := Qmax 0 (payment + - (balance * r))).
      assert (0 <= pp)%Q as Hpp by apply Q.le_max_l.
      set (b1 := Qmax 0 (balance + - pp)).
      assert (0 <= b1)%Q as Hb1 by apply Q.le_max_l.
      assert (b1 <= balance)%Q as Hb1' by (apply Q.max_lub; lra).
      destruct (IH b1 (paid + pp)%Q Hb1) as (b' & p' & Hrun & Hr1 & Hr2).
      exists b', p'. split; [exact Hrun|]. repeat split; lra.
Qed.

(** X12. Whatever the payment and the rate, the monthly loop never raises the
    balance nor takes it below 0, and never lowers the principal paid. *)
Theorem month_loop_bounds (months : nat) (payment r balance paid : Q) :
  (0 <= balance)%Q ->
  let '(balance', paid') := RentVsBuy.month_loop months payment r balance paid in
  (0%Q <=? balance')%js = true
  /\ (balance' <=? balance)%js = true
  /\ (paid <=? paid')%js = true.
Proof.
  intros Hb.
  destruct (month_loop_bounded months payment r balance paid Hb)
    as (b' & p' & -> & [Hb0 Hb1] & Hp).
  cbn [le]. repeat split; apply Qle_bool_iff; assumption.
Qed.

Lemma month_loop_bounds_witness :
  (0 <= 250)%Q
  /\ let '(balance', paid') := RentVsBuy.month_loop 12 100%Q 0.01%Q 250%Q 0%Q in
     (0%Q <=? balance')%js = true
     /\ (balance' <=? 250%Q)%js = true
     /\ (0%Q <=? paid')%js = true.
Proof.
  split; [discriminate|]. apply (month_loop_bounds 12 100 0.01 250 0). discriminate.
Defined.

(** X14. Running the monthly loop year after year is one long run: [a + b]
    months are [a] months followed by [b] months from where they ended,
    also when the balance runs out on the way. *)
Theorem month_loop_compose (a b : nat) (payment r : number) :
  forall balance paid : number,
    RentVsBuy.month_loop (a + b) payment r balance paid
    = let '(balance1, paid1) := RentVsBuy.month_loop a payment r balance paid in
      RentVsBuy.month_loop b payment r balance1 paid1.
Proof.
  induction a as [|a IH]; intros balance paid; [reflexivity|].
  cbn [Nat.add RentVsBuy.month_loop].
  destruct (balance <=? 0%Q)%js eqn:E; [|apply IH].
  destruct b as [|b]; [reflexivity|].
  cbn [RentVsBuy.month_loop]. now rewrite E.
Qed.

(** ** More on rent versus buy *)

Lemma last_snoc {A : Type} (l : list A) (x d : A) : last (l ++ [x]) d = x.
Proof.
  induction l as [|a l IH]; [reflexivity|].
  simpl. destruct (l ++ [x]) eqn:E; [now destruct l | exact IH].
Qed.

(** The projection for a year count [N] between 1 and 50. *)
Lemma projection_of_years `{MathHost}
    (targetHomePrice currentMonthlyRent rentInflationPct homeAppreciationPct
     durationYears : number) (N : Z) :
  Math_min 50%Q (Math_max 1%Q (Math_round durationYears)) = of_Z N ->
  (1 <= N <= 50)%Z ->
  exists (res : RentVsBuy.Result) (l : list RentVsBuy.DataPoint) (p : RentVsBuy.DataPoint),
    (forall fuel : nat, (51 <= fuel)%nat ->
       RentVsBuy.RentVsBuyCalculator fuel targetHomePrice currentMonthlyRent
         rentInflationPct homeAppreciationPct durationYears = Some res)
    /\ map RentVsBuy.year (RentVsBuy.data res) = years_1_to (Z.to_nat N)
    /\ RentVsBuy.data res = l ++ [p]
    /\ RentVsBuy.year p = of_Z N
    /\ RentVsBuy.finalRentCost (RentVsBuy.summary res) = RentVsBuy.rentCost p
    /\ RentVsBuy.finalBuyNetCost (RentVsBuy.summary res) = RentVsBuy.buyNetCost p.
Proof.
  intros Hyears HN. unfold RentVsBuy.RentVsBuyCalculator. rewrite Hyears.
  match goal with
  | |- context [RentVsBuy.year_loop ?a ?b ?c ?d ?e ?f ?g _ _ 1%Z ?s] =>
      destruct (year_loop_runs a b c d e f g N (Z.to_nat N) 1 s)
        as (s' & Hrun & _ & Hyrs); [lia | reflexivity |]
  end.
  change (Z.of_nat 1) with 1%Z in Hrun. simpl app in Hyrs.
  fold (years_1_to (Z.to_nat N)) in Hyrs.
  assert (exists l p, RentVsBuy.points s' = l ++ [p]) as (l & p & Hlp).
  { destruct (exists_last (l := RentVsBuy.points s')) as (l & p & E).
    - intros Hnil. rewrite Hnil in Hyrs. apply (f_equal (@List.length _)) in Hyrs.
      unfold years_1_to in Hyrs. rewrite !length_map, length_seq in Hyrs. simpl in Hyrs. lia.
    - now exists l, p. }
  assert (RentVsBuy.year p = of_Z N) as Hp.
  { rewrite Hlp in Hyrs. destruct (years_after l [] p 1 (Z.to_nat N) Hyrs) as [Hy _].
    rewrite Hy. f_equal.
    apply (f_equal (@List.length _)) in Hyrs.
    unfold years_1_to in Hyrs. rewrite !length_map, length_seq, length_app in Hyrs.
    simpl in Hyrs. lia. }
  eexists. exists l, p. split.
  - intros fuel Hfuel. rewrite Hrun by lia. reflexivity.
  - cbn [RentVsBuy.data RentVsBuy.summary RentVsBuy.finalRentCost
         RentVsBuy.finalBuyNetCost].
    split; [exact Hyrs|]. split; [exact Hlp|]. split; [exact Hp|].
    rewrite Hlp, map_app. simpl map. rewrite last_snoc. split; reflexivity.
Qed.

(** X16. The projection ends for every input, non-finite durations included,
    and never holds more than 50 points.  A [NaN] duration gives no point
    at all, a null crossover and final costs of 0; [Infinity] gives 50
    points and [-Infinity] one.  Whenever there is a point, the final costs
    are those of the last year. *)
Theorem projection_for_any_duration `{MathHost}
    (targetHomePrice currentMonthlyRent rentInflationPct homeAppreciationPct
     durationYears : number) :
  exists res : RentVsBuy.Result,
    (forall fuel : nat, (51 <= fuel)%nat ->
       RentVsBuy.RentVsBuyCalculator fuel targetHomePrice currentMonthlyRent
         rentInflationPct homeAppreciationPct durationYears = Some res)
    /\ (List.length (RentVsBuy.data res) <= 50)%nat
    /\ (durationYears = NaN ->
        RentVsBuy.data res = [] /\ RentVsBuy.crossoverYear res = None
        /\ RentVsBuy.finalRentCost (RentVsBuy.summary res) = Finite 0
        /\ RentVsBuy.finalBuyNetCost (RentVsBuy.summary res) = Finite 0)
    /\ (durationYears = PosInf -> List.length (RentVsBuy.data res) = 50%nat)
    /\ (durationYears = NegInf -> List.length (RentVsBuy.data res) = 1%nat)
    /\ (forall p : RentVsBuy.DataPoint,
          last (map Some (RentVsBuy.data res)) None = Some p ->
          RentVsBuy.finalRentCost (RentVsBuy.summary res) = RentVsBuy.rentCost p
          /\ RentVsBuy.finalBuyNetCost (RentVsBuy.summary res) = RentVsBuy.buyNetCost p).
Proof.
  assert (forall N : Z,
            Math_min 50%Q (Math_max 1%Q (Math_round durationYears)) = of_Z N ->
            (1 <= N <= 50)%Z -> durationYears <> NaN ->
            exists res : RentVsBuy.Result,
              (forall fuel : nat, (51 <= fuel)%nat ->
                 RentVsBuy.RentVsBuyCalculator fuel targetHomePrice currentMonthlyRent
                   rentInflationPct homeAppreciationPct durationYears = Some res)
              /\ List.length (RentVsBuy.data res) = Z.to_nat N
              /\ (forall p : RentVsBuy.DataPoint,
                    last (map Some (RentVsBuy.data res)) None = Some p ->
                    RentVsBuy.finalRentCost (RentVsBuy.summary res) = RentVsBuy.rentCost p
                    /\ RentVsBuy.finalBuyNetCost (RentVsBuy.summary res)
                       = RentVsBuy.buyNetCost p)) as Hmain.
  { intros N Hy HN Hnan.
    destruct (projection_of_years targetHomePrice currentMonthlyRent rentInflationPct
                homeAppreciationPct durationYears N Hy HN)
      as (res & l & p & Hrun & Hyrs & Hlp & _ & Hfr & Hfb).
    exists res. split; [exact Hrun|]. split.
    - rewrite <- (length_map RentVsBuy.year), Hyrs. unfold years_1_to.
      now rewrite length_map, length_seq.
    - intros p' Hlast. rewrite Hlp, map_app in Hlast. simpl map in Hlast.
      rewrite last_snoc in Hlast. injection Hlast as <-. split; assumption. }
  destruct durationYears as [d| | |].
  - destruct (Hmain (Spec.years d) (years_value d) (years_range d)) as (res & Hrun & Hlen & Hlast);
      [discriminate|].
    pose proof (years_range d). exists res. split; [exact Hrun|]. split; [lia|].
    repeat split; try discriminate. 1,2: apply Hlast; assumption.
  - destruct (Hmain 50%Z eq_refl ltac:(lia)) as (res & Hrun & Hlen & Hlast); [discriminate|].
    exists res. split; [exact Hrun|]. split; [rewrite Hlen; reflexivity|].
    repeat split; try discriminate; try (rewrite Hlen; reflexivity).
    1,2: apply Hlast; assumption.
  - destruct (Hmain 1%Z eq_refl ltac:(lia)) as (res & Hrun & Hlen & Hlast); [discriminate|].
    exists res. split; [exact Hrun|]. split; [rewrite Hlen; simpl; lia|].
    repeat split; try discriminate; try (rewrite Hlen; reflexivity).
    1,2: apply Hlast; assumption.
  - eexists. split.
    + intros fuel Hfuel. destruct fuel as [|fuel]; [lia|].
      unfold RentVsBuy.RentVsBuyCalculator. cbn [RentVsBuy.year_loop Math_round Math_max
        Math_min le of_Z]. reflexivity.
    + cbn [RentVsBuy.data RentVsBuy.crossoverYear RentVsBuy.summary
           RentVsBuy.finalRentCost RentVsBuy.finalBuyNetCost RentVsBuy.points
           RentVsBuy.firstCrossover map last List.length].
      split; [lia|]. repeat split; try discriminate.
Qed.

Lemma pow_of_year `{MathHost} (a : Q) (y : Z) :
  (0 <= a)%Q ->
  exists w : Q,
    Math_pow (Finite 1 + Finite a)%js (of_Z y - Finite 1)%js = Finite w /\ (0 < w)%Q.
Proof.
  intros Ha. exists ((1 + a) ^ (y - 1))%Q. split; [|apply Qpower_0_lt; lra].
  change (Finite 1 + Finite a)%js with (Finite (1 + a)).
  change (of_Z y - Finite 1)%js with (Finite (inject_Z y + - 1)).
  assert (Qfloor (inject_Z y + - 1) = (y - 1)%Z) as Hfl.
  { unfold Qfloor. simpl. rewrite Z.div_1_r. lia. }
  unfold Math_pow, is_integer. rewrite Hfl.
  replace (Qeq_bool (inject_Z y + - 1) (inject_Z (y - 1))) with true.
  2:{ symmetry. apply Qeq_bool_iff. unfold Qeq. simpl. lia. }
  replace (Qeq_bool (1 + a) 0) with false; [reflexivity|].
  symmetry. apply Qeq_bool_false. lra.
Qed.

Lemma sorted_snoc {A : Type} (R : A -> A -> Prop) (l : list A) (x : A) :
  StronglySorted R l -> Forall (fun y => R y x) l -> StronglySorted R (l ++ [x]).
Proof.
  induction 1 as [|a l Hs IH Ha]; intros Hx; simpl.
  - constructor; constructor.
  - inversion Hx as [|? ? Hax Hlx]; subst. constructor; [apply IH, Hlx|].
    apply Forall_app. split; [exact Ha | constructor; [exact Hax | constructor]].
Qed.

Section YearLoopCosts.
Context `{MathHost}.
Variables P0 R0 ri ap D M rr : Q.
Hypothesis HR0 : (0 <= R0)%Q.
Hypothesis Hri : (0 <= ri)%Q.
Hypothesis Hap : (0 <= ap)%Q.

Lemma year_body_costs (y : Z) (s : RentVsBuy.Loop) :
  costs_ok s -> costs_ok (RentVsBuy.year_body P0 R0 ri ap D M rr y s).
Proof.
  intros (bal & paid & rent & mort & tax & maint
          & Ebal & Epaid & Erent & Emort & Etax & Emaint & Hbal & Hrent & Hpts & Hsort).
  unfold RentVsBuy.year_body.
  rewrite Ebal, Epaid, Erent, Emort, Etax, Emaint.
  destruct (pow_of_year ap y Hap) as (wa & Ewa & Hwa).
  destruct (pow_of_year ri y Hri) as (wr & Ewr & Hwr).
  rewrite Ewa, Ewr.
  destruct (month_loop_bounded 12 M rr bal paid Hbal) as (bal' & paid' & Eloop & Hb' & _).
  rewrite Eloop.
  unfold RentVsBuy.ASSUMED_TAX_PCT, RentVsBuy.ASSUMED_MAINT_PCT.
  cbn [mul add sub neg Math_max le].
  set (rent' := (rent + R0 * wr * 12)%Q).
  assert (rent <= rent')%Q as Hmono.
  { unfold rent'. assert (0 <= R0 * wr)%Q by (apply Qmult_le_0_compat; lra). lra. }
  do 6 eexists.
  cbn [RentVsBuy.remainingBalance RentVsBuy.cumulativePrincipalPaid
       RentVsBuy.cumulativeRentCost RentVsBuy.cumulativeMortgagePaid
       RentVsBuy.cumulativeTaxPaid RentVsBuy.cumulativeMaintenancePaid RentVsBuy.points].
  do 6 (split; [reflexivity|]).
  split; [apply Hb'|]. split; [lra|]. split.
  - apply Forall_app. split.
    + apply (Forall_impl _ (P := fun p => point_ok p
                               /\ (RentVsBuy.rentCost p <=? Finite rent)%js = true));
        [|exact Hpts].
      intros p [Hok Hle]. split; [exact Hok|].
      destruct Hok as (rc & bc & Erc & _). rewrite Erc in Hle |- *. cbn [le] in Hle |- *.
      apply Qle_bool_iff in Hle. apply Qle_bool_iff. fold rent'. lra.
    + constructor; [|constructor]. split.
      * do 2 eexists. cbn [RentVsBuy.rentCost RentVsBuy.buyNetCost].
        split; [reflexivity|]. split; [reflexivity|].
        split; [fold rent'; lra | apply Q.le_max_l].
      * cbn [RentVsBuy.rentCost le]. apply Qle_bool_iff, Qle_refl.
  - apply sorted_snoc; [exact Hsort|].
    apply (Forall_impl _ (P := fun p => point_ok p
                             /\ (RentVsBuy.rentCost p <=? Finite rent)%js = true));
      [|exact Hpts].
    intros p [(rc & bc & Erc & _) Hle]. unfold rent_le. cbn [RentVsBuy.rentCost].
    rewrite Erc in Hle |- *. cbn [le] in Hle |- *.
    apply Qle_bool_iff in Hle. apply Qle_bool_iff. fold rent'. lra.
Qed.

Lemma year_loop_costs (fuel : nat) (years : number) :
  forall (y : Z) (s s' : RentVsBuy.Loop),
    RentVsBuy.year_loop P0 R0 ri ap D M rr fuel years y s = Some s' ->
    costs_ok s -> costs_ok s'.
Proof.
  induction fuel as [|fuel IH]; intros y s s' Hrun Hs; [discriminate Hrun|].
  cbn [RentVsBuy.year_loop] in Hrun.
  destruct (of_Z y <=? years)%js.
  - apply (IH _ _ _ Hrun). apply year_body_costs, Hs.
  - now injection Hrun as <-.
Qed.
End YearLoopCosts.

Lemma projection_total `{MathHost}
    (targetHomePrice currentMonthlyRent rentInflationPct homeAppreciationPct
     durationYears : number) :
  exists res : RentVsBuy.Result,
    forall fuel : nat, (51 <= fuel)%nat ->
      RentVsBuy.RentVsBuyCalculator fuel targetHomePrice currentMonthlyRent
        rentInflationPct homeAppreciationPct durationYears = Some res.
Proof.
  assert (forall N : Z,
            Math_min 50%Q (Math_max 1%Q (Math_round durationYears)) = of_Z N ->
            (1 <= N <= 50)%Z ->
            exists res : RentVsBuy.Result,
              forall fuel : nat, (51 <= fuel)%nat ->
                RentVsBuy.RentVsBuyCalculator fuel targetHomePrice currentMonthlyRent
                  rentInflationPct homeAppreciationPct durationYears = Some res) as Hmain.
  { intros N Hy HN.
    destruct (projection_of_years targetHomePrice currentMonthlyRent rentInflationPct
                homeAppreciationPct durationYears N Hy HN) as (res & _ & _ & Hrun & _).
    now exists res. }
  destruct durationYears as [d| | |].
  - apply (Hmain (Spec.years d) (years_value d) (years_range d)).
  - apply (Hmain 50%Z eq_refl). lia.
  - apply (Hmain 1%Z eq_refl). lia.
  - eexists. intros fuel Hfuel. destruct fuel as [|fuel]; [lia|].
    unfold RentVsBuy.RentVsBuyCalculator.
    cbn [RentVsBuy.year_loop Math_round Math_max Math_min le of_Z]. reflexivity.
Qed.

Lemma le_not_gt (x y : number) : (x <=? y)%js = true -> (y <? x)%js = false.
Proof.
  destruct x as [a| | |], y as [b| | |]; try discriminate; try reflexivity.
  cbn [le lt]. intros ->. reflexivity.
Qed.

Lemma sorted_weaken {A : Type} (R R' : A -> A -> Prop) (l : list A) :
  (forall a b, R a b -> R' a b) -> StronglySorted R l -> StronglySorted R' l.
Proof.
  intros HR. induction 1 as [|a l Hs IH Ha]; constructor; [exact IH|].
  eapply Forall_impl; [|exact Ha]. intros b. apply HR.
Qed.

(** X17. The projection ends for every input, finite or not; no point of it
    holds a cost below 0; and the cumulative rent of a later year is never
    below that of an earlier one. *)
Theorem projection_costs_sound `{MathHost}
    (targetHomePrice currentMonthlyRent rentInflationPct homeAppreciationPct
     durationYears : number) :
  exists res : RentVsBuy.Result,
    (forall fuel : nat, (51 <= fuel)%nat ->
       RentVsBuy.RentVsBuyCalculator fuel targetHomePrice currentMonthlyRent
         rentInflationPct homeAppreciationPct durationYears = Some res)
    /\ Forall no_negative_cost (RentVsBuy.data res)
    /\ StronglySorted rent_not_lower (RentVsBuy.data res).
Proof.
  destruct (projection_total targetHomePrice currentMonthlyRent rentInflationPct
              homeAppreciationPct durationYears) as (res & Hrun).
  exists res. split; [exact Hrun|].
  specialize (Hrun 51%nat (le_n _)). unfold RentVsBuy.RentVsBuyCalculator in Hrun.
  change RentVsBuy.clampNonNegative with Purchase.clampNonNegative in Hrun.
  change RentVsBuy.calculateMonthlyPayment
    with Purchase.calculateMonthlyPrincipalAndInterest in Hrun.
  unfold RentVsBuy.ASSUMED_RATE_PCT, RentVsBuy.ASSUMED_DOWN_PCT in Hrun.
  rewrite !clampNonNegative_nonneg, payment_spec in Hrun.
  rewrite !div_Finite in Hrun by (intros Hc; discriminate Hc).
  cbn [mul sub neg add Math_max] in Hrun.
  match type of Hrun with
  | context [RentVsBuy.year_loop ?a ?b ?c ?d ?e ?f ?g ?fuel ?yrs ?y ?s] =>
      destruct (RentVsBuy.year_loop a b c d e f g fuel yrs y s) as [s'|] eqn:E;
        [|discriminate Hrun];
      apply year_loop_costs in E
  end.
  - injection Hrun as <-. cbn [RentVsBuy.data].
    destruct E as (? & ? & ? & ? & ? & ? & _ & _ & _ & _ & _ & _ & _ & _ & Hpts & Hsort).
    split.
    + eapply Forall_impl; [|exact Hpts].
      intros p [(rc & bc & Erc & Ebc & Hrc & Hbc) _]. unfold no_negative_cost.
      rewrite Erc, Ebc. cbn [lt]. split; apply negb_false_iff, Qle_bool_iff; assumption.
    + apply (sorted_weaken rent_le); [|exact Hsort].
      intros p1 p2. apply le_not_gt.
  - apply nonneg_ge0.
  - pose proof (nonneg_ge0 rentInflationPct). apply Qle_shift_div_l; [reflexivity|lra].
  - pose proof (nonneg_ge0 homeAppreciationPct). apply Qle_shift_div_l; [reflexivity|lra].
  - do 6 eexists.
    cbn [RentVsBuy.remainingBalance RentVsBuy.cumulativePrincipalPaid
         RentVsBuy.cumulativeRentCost RentVsBuy.cumulativeMortgagePaid
         RentVsBuy.cumulativeTaxPaid RentVsBuy.cumulativeMaintenancePaid RentVsBuy.points].
    do 6 (split; [reflexivity|]).
    split; [apply Q.le_max_l|]. split; [apply Qle_refl|]. split; constructor.
Qed.

Import JSString.

(** ** The purchase breakdown *)

(** X18. Whatever the inputs, tax and insurance are a twelfth of the clamped
    annual amounts, finite and not negative; the total is the sum of the
    three components; and neither the principal-and-interest payment nor
    the total is below 0. *)
Theorem purchase_breakdown_sound `{MathHost}
    (homePrice downPayment interestRatePercent loanTermYears
     annualPropertyTax annualHomeInsurance : number) :
  let res := Purchase.PurchaseCalculator homePrice downPayment interestRatePercent
               loanTermYears annualPropertyTax annualHomeInsurance in
  Purchase.monthlyTax res = (Purchase.clampNonNegative annualPropertyTax / 12%Q)%js
  /\ Purchase.monthlyInsurance res
     = (Purchase.clampNonNegative annualHomeInsurance / 12%Q)%js
  /\ Purchase.totalMonthlyPayment res
     = (Purchase.monthlyPI res + Purchase.monthlyTax res + Purchase.monthlyInsurance res)%js
  /\ (exists tax ins : Q,
        Purchase.monthlyTax res = Finite tax /\ Purchase.monthlyInsurance res = Finite ins
        /\ (0 <= tax)%Q /\ (0 <= ins)%Q)
  /\ (Purchase.monthlyPI res <? 0%Q)%js = false
  /\ (Purchase.totalMonthlyPayment res <? 0%Q)%js = false.
Proof.
  cbv zeta. unfold Purchase.PurchaseCalculator.
  cbn [Purchase.monthlyPI Purchase.monthlyTax Purchase.monthlyInsurance
       Purchase.totalMonthlyPayment].
  do 3 (split; [reflexivity|]).
  rewrite payment_spec, !clampNonNegative_nonneg.
  rewrite !div_Finite by (intros Hc; discriminate Hc).
  pose proof (nonneg_ge0 annualPropertyTax) as Ht.
  pose proof (nonneg_ge0 annualHomeInsurance) as Hi.
  match goal with
  | |- context [Spec.monthlyPayment ?l ?a ?t] =>
      pose proof (monthlyPayment_ge0 l a t) as Hpi; set (pi := Spec.monthlyPayment l a t) in *
  end.
  assert (0 <= Spec.nonneg annualPropertyTax / 12)%Q as Ht'
    by (apply Qle_shift_div_l; [reflexivity|lra]).
  assert (0 <= Spec.nonneg annualHomeInsurance / 12)%Q as Hi'
    by (apply Qle_shift_div_l; [reflexivity|lra]).
  split; [do 2 eexists; repeat split; assumption|].
  cbn [add lt]. split; apply negb_false_iff, Qle_bool_iff; lra.
Qed.

(** X19. A down payment that covers the price leaves no loan: the loan amount
    and the principal-and-interest payment are 0, and the total is tax plus
    insurance. *)
Theorem purchase_full_down_payment `{MathHost}
    (homePrice downPayment : Q)
    (interestRatePercent loanTermYears annualPropertyTax annualHomeInsurance : number) :
  (homePrice <= downPayment)%Q ->
  let res := Purchase.PurchaseCalculator homePrice downPayment interestRatePercent
               loanTermYears annualPropertyTax annualHomeInsurance in
  Purchase.loanAmount res =n= 0%Q
  /\ Purchase.monthlyPI res = Finite 0
  /\ Purchase.totalMonthlyPayment res
     =n= (Purchase.monthlyTax res + Purchase.monthlyInsurance res)%js.
Proof.
  intros Hle. cbv zeta. unfold Purchase.PurchaseCalculator.
  cbn [Purchase.loanAmount Purchase.monthlyPI Purchase.monthlyTax
       Purchase.monthlyInsurance Purchase.totalMonthlyPayment].
  rewrite payment_spec, !clampNonNegative_nonneg.
  rewrite !div_Finite by (intros Hc; discriminate Hc).
  change (Math_max 0%Q (Finite homePrice - Finite downPayment)%js)
    with (Finite (Qmax 0 (homePrice - downPayment))).
  assert (Qmax 0 (homePrice - downPayment) == 0)%Q as Hl by (apply Q.max_l; lra).
  assert (Spec.monthlyPayment (Qmax 0 (homePrice - downPayment)) interestRatePercent
            loanTermYears = 0%Q) as Hpi.
  { apply monthlyPayment_degenerate. left.
    change (Spec.nonneg (Finite (Qmax 0 (homePrice - downPayment))))
      with (Qmax 0 (Qmax 0 (homePrice - downPayment))).
    rewrite Hl. reflexivity. }
  rewrite Hpi. split; [exact Hl|]. split; [reflexivity|]. simpl. ring.
Qed.

Lemma purchase_full_down_payment_witness :
  (300000 <= 400000)%Q
  /\ Purchase.monthlyPI
       (@Purchase.PurchaseCalculator silent_host 300000%Q 400000%Q 6.5%Q 30%Q 4000%Q 1200%Q)
     = Finite 0.
Proof.
  split; [discriminate|].
  apply (@purchase_full_down_payment silent_host 300000 400000 6.5%Q 30%Q 4000%Q 1200%Q).
  discriminate.
Defined.

(** ** Parsing a currency field *)

Lemma digits_value_from (s : jsstring) :
  forall acc : Z,
    forallb is_digit s = true -> (0 <= acc)%Z ->
    (0 <= fold_left (fun a c => (10 * a + (Z.of_N c - 48))%Z) s acc)%Z.
Proof.
  induction s as [|c s IH]; intros acc Hd Hacc; [exact Hacc|].
  cbn [forallb] in Hd. cbn [fold_left].
  apply andb_true_iff in Hd. destruct Hd as [Hc Hs].
  apply IH; [exact Hs|].
  unfold is_digit in Hc. apply andb_true_iff in Hc. destruct Hc as [Hlo _].
  apply N.leb_le in Hlo. lia.
Qed.

Lemma digits_value_nonneg (s : jsstring) :
  forallb is_digit s = true -> (0 <= digits_value s)%Z.
Proof. intros Hd. apply digits_value_from; [exact Hd | lia]. Qed.

Lemma Number_of_decimal_range (s : jsstring) :
  Number_of_decimal s = NaN
  \/ exists q : Q, Number_of_decimal s = Finite q /\ (0 <= q)%Q.
Proof.
  unfold Number_of_decimal. destruct (split_dot s) as [whole [frac|]].
  - destruct (forallb is_digit whole && forallb is_digit frac
              && negb (Nat.eqb (List.length whole + List.length frac) 0)) eqn:E;
      [|left; reflexivity].
    right. eexists. split; [reflexivity|].
    apply andb_true_iff in E. destruct E as [E _].
    apply andb_true_iff in E. destruct E as [Ew Ef].
    apply Qle_shift_div_l.
    + change 0%Q with (inject_Z 0). rewrite <- Zlt_Qlt. apply Z.pow_pos_nonneg; lia.
    + rewrite Qmult_0_l. change 0%Q with (inject_Z 0). rewrite <- Zle_Qle.
      apply digits_value_nonneg. rewrite forallb_app, Ew, Ef. reflexivity.
  - destruct (forallb is_digit whole) eqn:E; [|left; reflexivity].
    right. eexists. split; [reflexivity|].
    change 0%Q with (inject_Z 0). rewrite <- Zle_Qle. now apply digits_value_nonneg.
Qed.

(** X21. Whatever is typed, the parsed amount is a finite number that is not
    negative, so the clamp applied after it changes nothing. *)
Theorem parse_currency_finite_nonneg (raw : jsstring) :
  exists q : Q,
    Purchase.parseCurrencyInput raw = Finite q /\ (0 <= q)%Q
    /\ Purchase.clampNonNegative (Purchase.parseCurrencyInput raw)
       =n= Purchase.parseCurrencyInput raw.
Proof.
  unfold Purchase.parseCurrencyInput.
  destruct (Number_of_decimal_range
              (filter (fun c => is_digit c || is_dot c) raw)) as [E|(q & E & Hq)];
    rewrite E; simpl Number_isFinite; cbv iota.
  - exists 0%Q. split; [reflexivity|]. split; [apply Qle_refl | reflexivity].
  - exists q. split; [reflexivity|]. split; [exact Hq|].
    simpl. apply Q.max_r. exact Hq.
Qed.

Lemma split_dot_none (s : jsstring) :
  forallb (fun c => negb (is_dot c)) s = true -> split_dot s = (s, None).
Proof.
  induction s as [|c s IH]; [reflexivity|].
  simpl. intros Hs. apply andb_true_iff in Hs. destruct Hs as [Hc Hs].
  apply negb_true_iff in Hc. rewrite Hc, (IH Hs). reflexivity.
Qed.

Lemma split_dot_some (s : jsstring) :
  existsb is_dot s = true ->
  exists a b, split_dot s = (a, Some b) /\ s = a ++ 46%N :: b
              /\ forallb (fun c => negb (is_dot c)) a = true.
Proof.
  induction s as [|c s IH]; [discriminate|].
  simpl. destruct (is_dot c) eqn:Hc.
  - intros _. exists [], s. unfold is_dot in Hc. apply N.eqb_eq in Hc. subst c.
    repeat split.
  - simpl. intros Hs. destruct (IH Hs) as (a & b & E & -> & Ha).
    exists (c :: a), b. rewrite E. repeat split. simpl. now rewrite Hc, Ha.
Qed.

Lemma dot_is_no_digit (c : N) : is_dot c = true -> is_digit c = false.
Proof.
  unfold is_dot, is_digit. intros Hc. apply N.eqb_eq in Hc. subst c. reflexivity.
Qed.

(** X22. Symbols are ignored: with no dot in the text and at most fifteen
    digits, which every double holds exactly, the amount is the decimal
    value of the digits, whatever stands between them. *)
Theorem parse_currency_digits (raw : jsstring) :
  existsb is_dot raw = false ->
  (List.length (filter is_digit raw) <= 15)%nat ->
  Purchase.parseCurrencyInput raw = of_Z (digits_value (filter is_digit raw)).
Proof.
  intros Hnodot _. unfold Purchase.parseCurrencyInput.
  assert (filter (fun c => is_digit c || is_dot c) raw = filter is_digit raw) as Hf.
  { apply filter_ext_in. intros c Hin.
    assert (is_dot c = false) as Hc.
    { destruct (is_dot c) eqn:E; [|reflexivity].
      rewrite <- Hnodot. symmetry. apply existsb_exists. now exists c. }
    rewrite Hc. apply orb_false_r. }
  rewrite Hf.
  assert (forallb is_digit (filter is_digit raw) = true) as Hd.
  { apply forallb_forall. intros c Hin. apply filter_In in Hin. apply Hin. }
  unfold Number_of_decimal. rewrite split_dot_none.
  - rewrite Hd. reflexivity.
  - apply forallb_forall. intros c Hin. apply negb_true_iff.
    destruct (is_dot c) eqn:E; [|reflexivity].
    apply dot_is_no_digit in E. apply filter_In in Hin. destruct Hin as [_ Hin]. congruence.
Qed.

Lemma parse_currency_digits_witness :
  existsb is_dot (str "$1,234") = false
  /\ (List.length (filter is_digit (str "$1,234")) <= 15)%nat
  /\ Purchase.parseCurrencyInput (str "$1,234") = of_Z 1234.
Proof.
  split; [reflexivity|]. split; [vm_compute; lia|].
  apply (parse_currency_digits (str "$1,234")); [reflexivity | vm_compute; lia].
Defined.

(** X23. A text with two dots or more is no number: the amount is 0. *)
Theorem parse_currency_two_dots (a b c : jsstring) :
  Purchase.parseCurrencyInput (a ++ 46%N :: b ++ 46%N :: c) = Finite 0.
Proof.
  unfold Purchase.parseCurrencyInput.
  set (keep := fun ch : N => is_digit ch || is_dot ch).
  rewrite filter_app. cbn [filter]. change (keep 46%N) with true. cbv iota.
  rewrite filter_app. cbn [filter]. change (keep 46%N) with true. cbv iota.
  set (a' := filter keep a). set (b' := filter keep b). set (c' := filter keep c).
  assert (Number_of_decimal (a' ++ 46%N :: b' ++ 46%N :: c') = NaN) as E.
  { unfold Number_of_decimal.
    destruct (split_dot_some (a' ++ 46%N :: b' ++ 46%N :: c')) as (x & y & Es & Ecat & Hx).
    - rewrite existsb_app. simpl. apply orb_true_r.
    - rewrite Es.
      assert (existsb is_dot y = true) as Hy.
      { clear Es. revert Ecat Hx. generalize a'. clear a'.
        induction x as [|x0 x IH]; intros a0 Ecat Hx.
        - destruct a0 as [|a1 a0]; simpl in Ecat; inversion Ecat; subst;
            rewrite ?existsb_app; simpl; rewrite ?existsb_app; simpl;
            rewrite ?orb_true_r; reflexivity.
        - destruct a0 as [|a1 a0]; simpl in Ecat; inversion Ecat; subst.
          + discriminate Hx.
          + simpl in Hx. apply andb_true_iff in Hx. apply (IH a0); [assumption | apply Hx]. }
      assert (forallb is_digit y = false) as Hd.
      { apply existsb_exists in Hy. destruct Hy as (ch & Hin & Hch).
        destruct (forallb is_digit y) eqn:E; [|reflexivity].
        rewrite forallb_forall in E. specialize (E ch Hin).
        apply dot_is_no_digit in Hch. congruence. }
      rewrite Hd, andb_false_r. reflexivity. }
  rewrite E. reflexivity.
Qed.

(** ** Hex colours *)

Lemma hex_value_range (c : N) : Color.is_hex c = true -> (0 <= Color.hex_value c <= 15)%Z.
Proof.
  unfold Color.is_hex, Color.hex_value, is_digit. intros Hc.
  destruct ((48 <=? c)%N && (c <=? 57)%N) eqn:Ed.
  - apply andb_true_iff in Ed. destruct Ed as [H1 H2].
    apply N.leb_le in H1. apply N.leb_le in H2. lia.
  - simpl in Hc. apply orb_true_iff in Hc. destruct Hc as [Hc|Hc];
      apply andb_true_iff in Hc; destruct Hc as [H1 H2];
      apply N.leb_le in H1; apply N.leb_le in H2.
    + replace (c <=? 70)%N with true by (symmetry; apply N.leb_le; lia). lia.
    + replace (c <=? 70)%N with false by (symmetry; apply N.leb_gt; lia). lia.
Qed.

Lemma hex_is_no_space (c : N) : Color.is_hex c = true -> is_space c = false.
Proof.
  intros Hc. destruct (is_space c) eqn:E; [|reflexivity]. exfalso.
  unfold is_space in E. cbn [existsb] in E.
  repeat (apply orb_true_iff in E; destruct E as [E|E]);
    try (apply N.eqb_eq in E; subst c; discriminate Hc); try discriminate E.
  apply andb_true_iff in E. destruct E as [H1 H2].
  apply N.leb_le in H1. apply N.leb_le in H2.
  unfold Color.is_hex, is_digit in Hc.
  repeat (apply orb_true_iff in Hc; destruct Hc as [Hc|Hc]);
    apply andb_true_iff in Hc; destruct Hc as [H3 H4];
    apply N.leb_le in H3; apply N.leb_le in H4; lia.
Qed.

Lemma drop_spaces_all (ws s : jsstring) :
  forallb is_space ws = true -> drop_spaces (ws ++ s) = drop_spaces s.
Proof.
  induction ws as [|c ws IH]; [reflexivity|].
  simpl. intros Hws. apply andb_true_iff in Hws. destruct Hws as [Hc Hws].
  now rewrite Hc, (IH Hws).
Qed.

Lemma drop_spaces_head (c : N) (s : jsstring) :
  is_space c = false -> drop_spaces (c :: s) = c :: s.
Proof. intros Hc. simpl. now rewrite Hc. Qed.

Lemma forallb_rev {A : Type} (f : A -> bool) (l : list A) :
  forallb f (rev l) = forallb f l.
Proof.
  induction l as [|a l IH]; [reflexivity|].
  simpl. rewrite forallb_app, IH. simpl. rewrite andb_true_r. apply andb_comm.
Qed.

(** [trim] removes the white space around a text that holds none. *)
Lemma trim_core (ws1 s ws2 : jsstring) :
  forallb is_space ws1 = true -> forallb is_space ws2 = true ->
  forallb (fun c => negb (is_space c)) s = true ->
  trim (ws1 ++ s ++ ws2) = s.
Proof.
  intros H1 H2 Hs. unfold trim. rewrite (drop_spaces_all _ _ H1).
  destruct (rev s) as [|c r] eqn:Er.
  - apply (f_equal (@rev N)) in Er. rewrite rev_involutive in Er. subst s.
    simpl app. rewrite <- (app_nil_r ws2), (drop_spaces_all _ _ H2). reflexivity.
  - assert (is_space c = false) as Hc.
    { rewrite <- forallb_rev, Er in Hs. simpl in Hs. apply andb_true_iff in Hs.
      now apply negb_true_iff. }
    destruct s as [|c0 s]; [discriminate Er|].
    assert (is_space c0 = false) as Hc0.
    { simpl in Hs. apply andb_true_iff in Hs. now apply negb_true_iff. }
    change ((c0 :: s) ++ ws2) with (c0 :: (s ++ ws2)).
    rewrite (drop_spaces_head _ _ Hc0).
    change (c0 :: s ++ ws2) with ((c0 :: s) ++ ws2).
    rewrite rev_app_distr, drop_spaces_all by (now rewrite forallb_rev).
    rewrite Er, (drop_spaces_head _ _ Hc), <- Er.
    apply rev_involutive.
Qed.

Lemma parseInt16_pair (h l : N) :
  Color.parseInt16 [h; l] = of_Z (16 * Color.hex_value h + Color.hex_value l).
Proof. reflexivity. Qed.

(** X24. Whatever the text and the opacity, the three channels are integers
    between 0 and 255, and the opacity is either the one passed in (an
    invalid colour) or a number between 0 and 1. *)
Theorem hex_channels_in_range (hex : jsstring) (alpha : number) :
  let c := Color.hexToRgba hex alpha in
  (exists r g b : Z,
     Color.red c = of_Z r /\ Color.green c = of_Z g /\ Color.blue c = of_Z b
     /\ (0 <= r <= 255)%Z /\ (0 <= g <= 255)%Z /\ (0 <= b <= 255)%Z)
  /\ (Color.opacity c = alpha
      \/ exists a : Q, Color.opacity c = Finite a /\ (0 <= a <= 1)%Q).
Proof.
  cbv zeta. unfold Color.hexToRgba.
  set (cleaned := match trim hex with
                  | c :: t => if (c =? 35)%N then t else trim hex
                  | [] => trim hex
                  end).
  set (normalized := if Nat.eqb (List.length cleaned) 3
                     then flat_map (fun c => [c; c]) cleaned else cleaned).
  destruct (Nat.eqb (List.length normalized) 6 && forallb Color.is_hex normalized) eqn:E;
    simpl negb; cbv iota.
  2:{ split; [|left; reflexivity]. exists 0%Z, 0%Z, 0%Z. repeat split; lia. }
  apply andb_true_iff in E. destruct E as [Hlen Hhex]. apply Nat.eqb_eq in Hlen.
  destruct normalized as [|c1 [|c2 [|c3 [|c4 [|c5 [|c6 [|c7 n]]]]]]]; try discriminate Hlen.
  cbn [forallb] in Hhex.
  repeat (apply andb_true_iff in Hhex; destruct Hhex as [?H Hhex]).
  unfold Color.slice. cbn [skipn firstn Nat.sub].
  rewrite !parseInt16_pair.
  cbn [Color.red Color.green Color.blue Color.opacity].
  split.
  - do 3 eexists. do 3 (split; [reflexivity|]).
    repeat match goal with
           | Hc : Color.is_hex _ = true |- _ => apply hex_value_range in Hc
           end.
    repeat split; lia.
  - right. destruct alpha as [q| | |]; simpl.
    + exists (Qmin 1 (Qmax 0 q)). split; [reflexivity|]. split.
      * apply Q.min_glb; [discriminate | apply Q.le_max_l].
      * apply Q.le_min_l.
    + exists 0%Q. split; [reflexivity|]. split; discriminate.
    + exists 0%Q. split; [reflexivity|]. split; discriminate.
    + exists 0%Q. split; [reflexivity|]. split; discriminate.
Qed.

(** X25. Six hex digits, with or without a leading [#] and whatever white space
    around them, give the three byte values of their pairs, and the
    opacity clamped to [[0, 1]] with a non-finite one counting as 0. *)
Theorem hex_six_digits (c1 c2 c3 c4 c5 c6 : N) (ws1 ws2 : jsstring) (alpha : number) :
  forallb Color.is_hex [c1; c2; c3; c4; c5; c6] = true ->
  forallb is_space ws1 = true -> forallb is_space ws2 = true ->
  let expected :=
    {| Color.red := of_Z (16 * Color.hex_value c1 + Color.hex_value c2);
       Color.green := of_Z (16 * Color.hex_value c3 + Color.hex_value c4);
       Color.blue := of_Z (16 * Color.hex_value c5 + Color.hex_value c6);
       Color.opacity :=
         if Number_isFinite alpha then Math_min 1%Q (Math_max 0%Q alpha) else 0%Q |} in
  Color.hexToRgba (ws1 ++ (35%N :: [c1; c2; c3; c4; c5; c6]) ++ ws2) alpha = expected
  /\ Color.hexToRgba (ws1 ++ [c1; c2; c3; c4; c5; c6] ++ ws2) alpha = expected.
Proof.
  intros Hhex H1 H2. cbv zeta.
  assert (forallb (fun c => negb (is_space c)) [c1; c2; c3; c4; c5; c6] = true) as Hns.
  { apply forallb_forall. intros c Hin. apply negb_true_iff, hex_is_no_space.
    rewrite forallb_forall in Hhex. now apply Hhex. }
  assert (is_hex_head : Color.is_hex c1 = true)
    by (cbn [forallb] in Hhex; now apply andb_true_iff in Hhex).
  assert ((c1 =? 35)%N = false) as Hc1.
  { destruct (c1 =? 35)%N eqn:E; [|reflexivity].
    apply N.eqb_eq in E. subst c1. discriminate is_hex_head. }
  split; unfold Color.hexToRgba; cbv zeta.
  - rewrite trim_core; [| exact H1 | exact H2 | cbn [forallb]; cbn [forallb] in Hns; exact Hns].
    rewrite N.eqb_refl.
    cbn [List.length Nat.eqb]. rewrite Hhex. simpl negb. cbv iota.
    unfold Color.slice. cbn [skipn firstn Nat.sub]. now rewrite !parseInt16_pair.
  - rewrite trim_core; [| exact H1 | exact H2 | exact Hns].
    rewrite Hc1.
    cbn [List.length Nat.eqb]. rewrite Hhex. simpl negb. cbv iota.
    unfold Color.slice. cbn [skipn firstn Nat.sub]. now rewrite !parseInt16_pair.
Qed.

Lemma hex_six_digits_witness :
  forallb Color.is_hex (str "1e1b4b") = true
  /\ Color.hexToRgba (str "  #1e1b4b ") 0.1%Q
     = {| Color.red := of_Z 30; Color.green := of_Z 27; Color.blue := of_Z 75;
          Color.opacity := 0.1%Q |}.
Proof.
  split; [reflexivity|].
  apply (proj1 (hex_six_digits 49 101 49 98 52 98 (str "  ") (str " ") 0.1%Q
                  eq_refl eq_refl eq_refl)).
Defined.

(** X26. The three-digit shorthand doubles each digit: [#abc] is [#aabbcc]. *)
Theorem hex_shorthand (c1 c2 c3 : N) (alpha : number) :
  forallb Color.is_hex [c1; c2; c3] = true ->
  Color.hexToRgba (35%N :: [c1; c2; c3]) alpha
  = Color.hexToRgba (35%N :: [c1; c1; c2; c2; c3; c3]) alpha
  /\ Color.hexToRgba [c1; c2; c3] alpha = Color.hexToRgba [c1; c1; c2; c2; c3; c3] alpha.
Proof.
  intros Hhex.
  assert (forall l, forallb Color.is_hex l = true ->
                    forallb (fun c => negb (is_space c)) l = true) as Hns.
  { intros l Hl. apply forallb_forall. intros c Hin. apply negb_true_iff, hex_is_no_space.
    rewrite forallb_forall in Hl. now apply Hl. }
  assert (forallb Color.is_hex [c1; c1; c2; c2; c3; c3] = true) as Hhex6.
  { cbn [forallb] in Hhex |- *.
    repeat (apply andb_true_iff in Hhex; destruct Hhex as [?H Hhex]).
    repeat (apply andb_true_iff; split); assumption. }
  assert (forall l, forallb Color.is_hex l = true -> trim l = l) as Htrim.
  { intros l Hl. rewrite <- (trim_core [] l []) at 2; [|reflexivity|reflexivity|now apply Hns].
    now rewrite app_nil_r. }
  assert (forall l, forallb Color.is_hex l = true -> trim (35%N :: l) = 35%N :: l) as Htrim'.
  { intros l Hl. rewrite <- (trim_core [] (35%N :: l) []) at 2; [|reflexivity|reflexivity|].
    - now rewrite app_nil_r.
    - cbn [forallb]. rewrite (Hns l Hl). reflexivity. }
  assert ((c1 =? 35)%N = false) as Hc1.
  { destruct (c1 =? 35)%N eqn:E; [|reflexivity].
    apply N.eqb_eq in E. subst c1. discriminate Hhex. }
  unfold Color.hexToRgba. cbv zeta.
  rewrite !Htrim', !Htrim by assumption. rewrite N.eqb_refl, Hc1.
  split; reflexivity.
Qed.

Lemma hex_shorthand_witness :
  forallb Color.is_hex (str "fA3") = true
  /\ Color.hexToRgba (str "#fA3") 1%Q = Color.hexToRgba (str "#ffAA33") 1%Q.
Proof.
  split; [reflexivity|]. apply (proj1 (hex_shorthand 102 65 51 1%Q eq_refl)).
Defined.

(** X27. A text that, once trimmed, is not 3, 4, 6 or 7 code units long is no
    colour: the result is black, and the opacity is handed back as it came,
    not clamped and not checked. *)
Theorem hex_rejected_keeps_opacity (hex : jsstring) (alpha : number) :
  existsb (Nat.eqb (List.length (trim hex))) [3; 4; 6; 7]%nat = false ->
  Color.hexToRgba hex alpha
  = {| Color.red := 0%Q; Color.green := 0%Q; Color.blue := 0%Q; Color.opacity := alpha |}.
Proof.
  intros Hlen. unfold Color.hexToRgba. cbv zeta.
  cbn [existsb] in Hlen. rewrite orb_false_r in Hlen.
  repeat (apply orb_false_iff in Hlen; destruct Hlen as [?H Hlen]).
  repeat match goal with
         | Hn : Nat.eqb _ _ = false |- _ => apply Nat.eqb_neq in Hn
         end.
  set (cleaned := match trim hex with
                  | c :: t => if (c =? 35)%N then t else trim hex
                  | [] => trim hex
                  end).
  assert (List.length cleaned = List.length (trim hex)
          \/ S (List.length cleaned) = List.length (trim hex)) as Hc.
  { unfold cleaned. destruct (trim hex) as [|c t]; [left; reflexivity|].
    destruct (c =? 35)%N; [right|left]; reflexivity. }
  assert (List.length cleaned <> 3%nat /\ List.length cleaned <> 6%nat) as [H3 H6]
    by (destruct Hc; split; lia).
  apply Nat.eqb_neq in H3. rewrite H3.
  apply Nat.eqb_neq in H6. rewrite H6. reflexivity.
Qed.

Lemma hex_rejected_keeps_opacity_witness :
  existsb (Nat.eqb (List.length (trim (str "#1234")))) [3; 4; 6; 7]%nat = false
  /\ Color.opacity (Color.hexToRgba (str "#1234") NaN) = NaN.
Proof.
  split; [reflexivity|].
  rewrite (hex_rejected_keeps_opacity (str "#1234") NaN); reflexivity.
Defined.

(** X20. The down-payment percentage never divides by zero: it is 0 unless
    the home price is greater than 0; for a finite down payment it is
    never [NaN]; and for a down payment that is not negative it is never
    below 0. *)
Theorem down_payment_pct_guarded (homePrice : number) (downPayment : Q) :
  ((homePrice >? 0%Q)%js = false ->
   Purchase.downPaymentPct homePrice downPayment = Finite 0)
  /\ (Purchase.downPaymentPct homePrice downPayment
      === Purchase.downPaymentPct homePrice downPayment)%js = true
  /\ ((0%Q <=? downPayment)%js = true ->
      (Purchase.downPaymentPct homePrice downPayment <? 0%Q)%js = false).
Proof.
  unfold Purchase.downPaymentPct. split; [intros ->; reflexivity|].
  destruct homePrice as [h| | |]; try (split; reflexivity).
  unfold gt. cbn [lt].
  destruct (Qle_bool h 0) eqn:E; simpl negb; cbv iota; [split; reflexivity|].
  assert (0 < h)%Q as Hh
    by (apply Qnot_le_lt; intros Hx; apply Qle_bool_iff in Hx; congruence).
  rewrite div_Finite by lra. cbn [mul strict_eq lt le].
  split; [apply Qeq_bool_refl|].
  intros Hd. apply Qle_bool_iff in Hd. apply negb_false_iff, Qle_bool_iff.
  apply Qmult_le_0_compat; [|discriminate]. apply Qle_shift_div_l; [exact Hh | lra].
Qed.
